(** * prompt-lint: the prompt acceptance checker of claudekit

    A shallow embedding of [assets/hooks/prompt-lint.py] and the properties
    its specification states about it.

    The script reads all of standard input, decodes it as JSON inside a
    [try]/[except Exception] block, takes the ["prompt"] entry, and either
    writes a reminder to standard error and exits with status 2, or writes a
    guidance sentence to standard output and exits with status 0.

    Modelling choices:
    - Python objects that [json.loads] can return are the inductive [value];
      a [dict] is an association list without duplicate keys, in insertion
      order; a [float] keeps the text of its literal, since the script never
      looks inside a number.
    - Python [str] is Rocq's [string]; non-ASCII text is its UTF-8 bytes.
      [str.lower] changes the letters A-Z only: no character outside ASCII
      has a lowercase form made of letters of the word [acceptance], so the
      script's test gives the same answer on the bytes. [len] counts bytes,
      which the script only compares with 0; [code_points] counts
      characters.
    - Line 3 is embedded twice. [main] is the script on a standard input
      that holds text, which [sys.stdin.read()] returns as it is. [main_bytes]
      is the script on a standard input that holds bytes: [sys.stdin.read()]
      decodes them with the decoder of the stream and raises when it cannot.
      Both continue with the same lines 4-15, [lint].
    - Exceptions and the standard streams are threaded by a small
      state-and-exception monad [M] over a [world].
    - [json.loads] is library code: the script is embedded over an arbitrary
      decoder [json_loads], so that every general theorem holds whatever the
      decoder accepts or refuses, and [Json.loads] is a decoder written after
      CPython's [json.decoder], with the interpreter's limits on nesting and
      on the digits of an [int], used to run the script on concrete text. *)

From Stdlib Require Import String Ascii List ZArith NArith Bool Lia.
Import ListNotations.

Local Open Scope string_scope.
Local Open Scope Z_scope.

(** ** Python values and exceptions *)

#[local] Set Warnings "-register-all".

Inductive value : Type :=
| VNone
| VBool (b : bool)
| VInt (n : Z)
| VFloat (literal : string)
| VStr (s : string)
| VList (items : list value)
| VDict (entries : list (string * value)).

(** The subclasses of [Exception] that can occur in the script. *)
Inductive exception : Type :=
| JSONDecodeError
| RecursionError
| ValueError
| AttributeError
| TypeError
| UnicodeDecodeError.

(** [SystemExit] derives from [BaseException] only: [except Exception] does
    not catch it. *)
Inductive base_exception : Type :=
| Exc (e : exception)
| SystemExit (code : Z).

Inductive result (A : Type) : Type :=
| Return (a : A)
| Raise (e : base_exception).

Arguments Return {A} a.
Arguments Raise {A} e.

(** ** The process state: the three standard streams *)

Record world : Type := World {
  stdin : string;
  stdout : string;
  stderr : string
}.

Definition M (A : Type) : Type := world -> result A * world.

Definition ret {A : Type} (a : A) : M A := fun w => (Return a, w).

Definition bind {A B : Type} (m : M A) (k : A -> M B) : M B :=
  fun w =>
    match m w with
    | (Return a, w') => k a w'
    | (Raise e, w') => (Raise e, w')
    end.

Definition raise {A : Type} (e : base_exception) : M A := fun w => (Raise e, w).

Declare Scope py_scope.
Delimit Scope py_scope with py.
Notation "x <- m ;; k" := (bind m (fun x => k))
  (at level 61, m at next level, right associativity) : py_scope.
Notation "m ;; k" := (bind m (fun _ => k))
  (at level 61, right associativity) : py_scope.
Local Open Scope py_scope.

(** [try: body  except Exception: handler] *)
Definition try_except_Exception {A : Type} (body handler : M A) : M A :=
  fun w =>
    match body w with
    | (Raise (Exc _), w') => handler w'
    | other => other
    end.

(** A library call that returns or raises an [Exception]. *)
Definition call {A : Type} (r : exception + A) : M A :=
  match r with
  | inl e => raise (Exc e)
  | inr a => ret a
  end.

(** ** Built-ins *)

Definition newline : string := String "010"%char EmptyString.

(** [sys.stdin.read()]: the whole stream, which is left at its end. *)
Definition sys_stdin_read : M string :=
  fun w => (Return (stdin w), World EmptyString (stdout w) (stderr w)).

(** [sys.stdin] is a text stream over the bytes of the process input: its
    [read()] takes all the bytes and decodes them with the encoding and the
    error handler the interpreter gave the stream at start-up (UTF-8 and
    [strict] in a UTF-8 locale; [surrogateescape] in the C locale or in UTF-8
    mode; whatever [PYTHONIOENCODING] names). A [text_decoder] is that
    decoding: the text, or the exception the codec raises. *)
Definition text_decoder : Type := string -> exception + string.

(** [sys.stdin.read()] on a stream whose content is bytes still to be
    decoded. The stream is left at its end whether the decoding succeeds or
    not. *)
Definition sys_stdin_read_decoding (decode : text_decoder) : M string :=
  fun w =>
    match decode (stdin w) with
    | inr text => (Return text, World EmptyString (stdout w) (stderr w))
    | inl e => (Raise (Exc e), World EmptyString (stdout w) (stderr w))
    end.

(** The UTF-8 codec with the [strict] error handler. Text is kept as its
    UTF-8 bytes, so decoding well-formed bytes returns them; anything else
    (a stray continuation byte, a truncated or overlong sequence, an encoded
    surrogate, a code point above U+10FFFF) is a [UnicodeDecodeError]. *)
Definition in_range (lo hi : nat) (c : ascii) : bool :=
  let n := nat_of_ascii c in ((lo <=? n)%nat && (n <=? hi)%nat)%bool.

Definition continuation (c : ascii) : bool := in_range 128 191 c.



(** [sys.stdout.write(s)] and [sys.stderr.write(s)] append to the stream and
    return the number of characters written. *)
Definition sys_stdout_write (s : string) : M Z :=
  fun w => (Return (Z.of_nat (String.length s)),
            World (stdin w) (stdout w ++ s) (stderr w)).

Definition sys_stderr_write (s : string) : M Z :=
  fun w => (Return (Z.of_nat (String.length s)),
            World (stdin w) (stdout w) (stderr w ++ s)).

(** [sys.exit(code)] raises [SystemExit(code)]. *)
Definition sys_exit {A : Type} (code : Z) : M A := raise (SystemExit code).

Fixpoint dict_lookup (key : string) (entries : list (string * value)) : option value :=
  match entries with
  | [] => None
  | (k, v) :: rest => if String.eqb k key then Some v else dict_lookup key rest
  end.

(** [obj.get(key, default)]: only a [dict] has the attribute [get]. *)
Definition get (obj : value) (key : string) (default : value) : M value :=
  match obj with
  | VDict entries =>
      match dict_lookup key entries with
      | Some v => ret v
      | None => ret default
      end
  | _ => raise (Exc AttributeError)
  end.

(** [len(x)]: defined on [str], [list] and [dict]; a [TypeError] on [None],
    [bool], [int] and [float]. *)
Definition len (x : value) : M Z :=
  match x with
  | VStr s => ret (Z.of_nat (String.length s))
  | VList items => ret (Z.of_nat (List.length items))
  | VDict entries => ret (Z.of_nat (List.length entries))
  | _ => raise (Exc TypeError)
  end.

Definition lower_char (c : ascii) : ascii :=
  let n := nat_of_ascii c in
  if ((65 <=? n)%nat && (n <=? 90)%nat)%bool then ascii_of_nat (n + 32) else c.

Fixpoint str_lower (s : string) : string :=
  match s with
  | EmptyString => EmptyString
  | String c rest => String (lower_char c) (str_lower rest)
  end.

(** [x.lower()]: only a [str] has the attribute [lower]. *)
Definition lower (x : value) : M string :=
  match x with
  | VStr s => ret (str_lower s)
  | _ => raise (Exc AttributeError)
  end.

(** [s.startswith(p)] *)
Fixpoint startswith (s p : string) {struct p} : bool :=
  match p with
  | EmptyString => true
  | String c p' =>
      match s with
      | EmptyString => false
      | String d s' => (Ascii.eqb c d && startswith s' p')%bool
      end
  end.

(** [sub in s] on two [str]: [sub] occurs in [s] as a contiguous run. *)
Fixpoint str_contains (sub s : string) : bool :=
  (startswith s sub ||
   match s with
   | EmptyString => false
   | String _ rest => str_contains sub rest
   end)%bool.

(** ** The script *)

Definition marker : string := "acceptance".

Definition reminder : string :=
  "Please include acceptance criteria in your prompt (exit=2 to block)." ++ newline.

Definition guidance : string :=
  "Consider: objective, constraints, acceptance criteria, and test plan.".

Definition decoder : Type := string -> exception + value.

Section Script.

Variable json_loads : decoder.

(** Lines 4-8:
<<
try:
    obj = json.loads(data)
    prompt = obj.get("prompt","")
except Exception:
    prompt = ""
>> *)
Definition extract_prompt (data : string) : M value :=
  try_except_Exception
    (obj <- call (json_loads data) ;;
     get obj "prompt" (VStr EmptyString))
    (ret (VStr EmptyString)).

(** Line 10, the condition
    [len(prompt) > 0 and "acceptance" not in prompt.lower()];
    [and] evaluates its right operand only when the left one is true. *)
Definition lacks_acceptance (prompt : value) : M bool :=
  n <- len prompt ;;
  if 0 <? n then
    low <- lower prompt ;;
    ret (negb (str_contains marker low))
  else ret false.

(** Lines 4-15: what the module does with the text that line 3 has bound
    to [data]. *)
Definition lint (data : string) : M unit :=
  prompt <- extract_prompt data ;;
  blocked <- lacks_acceptance prompt ;;
  (if blocked
   then (sys_stderr_write reminder ;; sys_exit 2)
   else ret tt) ;;
  sys_stdout_write guidance ;;
  sys_exit 0.

(** The module body, lines 3-15, on a standard input that holds text. *)
Definition main : M unit :=
  data <- sys_stdin_read ;;
  lint data.

(** The module body, lines 3-15, on a standard input that holds bytes which
    the stream decodes with [decode]: line 3 is outside the [try] block, so
    what [sys.stdin.read()] raises ends the script. *)
Definition main_bytes (decode : text_decoder) : M unit :=
  data <- sys_stdin_read_decoding decode ;;
  lint data.

(** The vocabulary of the specification, read off the script: the prompt
    that lines 4-8 leave in [prompt], whatever the streams hold, and the
    verdict, which is the branch line 10 takes. *)
Definition extracts (data : string) (prompt : value) : Prop :=
  forall w, extract_prompt data w = (Return prompt, w).

Inductive verdict : Type :=
| Blocked
| Allowed.

Definition condition_of (v : verdict) : bool :=
  match v with
  | Blocked => true
  | Allowed => false
  end.

Definition has_verdict (data : string) (v : verdict) : Prop :=
  exists prompt,
    extracts data prompt /\
    forall w, lacks_acceptance prompt w = (Return (condition_of v), w).

End Script.

(** ** A JSON decoder after CPython's [json.decoder]

    [loads] follows [json.loads] with its default arguments: [scan_once],
    [JSONObject], [JSONArray], [py_scanstring] (strict mode) and the number
    pattern [NUMBER_RE]: an optional minus sign, 0 or a run of digits that
    does not start with 0, an optional fraction, an optional exponent.
    Positions in the text are the remaining input.

    Malformed text is a [JSONDecodeError]. The decoder also meets two limits
    of the interpreter, gathered in [limits]: entering an array or an object
    deeper than the interpreter allows is a [RecursionError], and [int] on
    more digits than [sys.get_int_max_str_digits()] (4300 by default, 0 for
    no limit) is a [ValueError]. How deep the interpreter allows depends on
    its version and on the calls already on its stack; [cpython_limits]
    takes the default of [sys.getrecursionlimit()], 1000, as a nominal
    value, and no general theorem depends on it.

    The recursion of the scanners is bounded by fuel; a scanner that runs
    out of it answers [OutOfFuel], which the amount [loads_with] gives rules
    out for every text ([loads_has_fuel]). *)

Module Json.

Definition dquote : ascii := "034"%char.
Definition backslash : ascii := "092"%char.

Definition is_whitespace (c : ascii) : bool :=
  (Ascii.eqb c " " || Ascii.eqb c "009" || Ascii.eqb c "010" || Ascii.eqb c "013")%bool.

Fixpoint skip_whitespace (s : string) : string :=
  match s with
  | String c rest => if is_whitespace c then skip_whitespace rest else s
  | EmptyString => s
  end.

Definition is_digit (c : ascii) : bool :=
  let n := nat_of_ascii c in ((48 <=? n)%nat && (n <=? 57)%nat)%bool.

Definition digit_value (c : ascii) : Z := Z.of_nat (nat_of_ascii c) - 48.

(** The longest run of digits at the front of [s], and what follows it. *)
Fixpoint take_digits (s : string) : string * string :=
  match s with
  | String c rest =>
      if is_digit c
      then let (ds, rest') := take_digits rest in (String c ds, rest')
      else (EmptyString, s)
  | EmptyString => (EmptyString, s)
  end.

Fixpoint int_of_digits (acc : Z) (ds : string) : Z :=
  match ds with
  | EmptyString => acc
  | String c rest => int_of_digits (10 * acc + digit_value c) rest
  end.

Definition hex_value (c : ascii) : option N :=
  let n := N_of_ascii c in
  if ((48 <=? n) && (n <=? 57))%N%bool then Some (n - 48)%N
  else if ((65 <=? n) && (n <=? 70))%N%bool then Some (n - 55)%N
  else if ((97 <=? n) && (n <=? 102))%N%bool then Some (n - 87)%N
  else None.

(** [_decode_uXXXX]: four hexadecimal digits. *)
Definition decode_uXXXX (s : string) : option (N * string) :=
  match s with
  | String a (String b (String c (String d rest))) =>
      match hex_value a, hex_value b, hex_value c, hex_value d with
      | Some x, Some y, Some z, Some t => Some ((((x * 16 + y) * 16 + z) * 16 + t)%N, rest)
      | _, _, _, _ => None
      end
  | _ => None
  end.

(** [chr(uni)], as UTF-8 bytes. *)
Definition chr (uni : N) : string :=
  let byte (n : N) := ascii_of_N n in
  let cont (n : N) := byte (128 + n mod 64)%N in
  if (uni <? 128)%N then String (byte uni) EmptyString
  else if (uni <? 2048)%N then
    String (byte (192 + uni / 64)%N) (String (cont uni) EmptyString)
  else if (uni <? 65536)%N then
    String (byte (224 + uni / 4096)%N)
      (String (cont (uni / 64)%N) (String (cont uni) EmptyString))
  else
    String (byte (240 + uni / 262144)%N)
      (String (cont (uni / 4096)%N)
         (String (cont (uni / 64)%N) (String (cont uni) EmptyString))).

(** The table [BACKSLASH] of one-letter escapes. *)
Definition escape_char (esc : ascii) : option ascii :=
  if Ascii.eqb esc dquote then Some dquote
  else if Ascii.eqb esc backslash then Some backslash
  else if Ascii.eqb esc "/" then Some "/"%char
  else if Ascii.eqb esc "b" then Some "008"%char
  else if Ascii.eqb esc "f" then Some "012"%char
  else if Ascii.eqb esc "n" then Some "010"%char
  else if Ascii.eqb esc "r" then Some "013"%char
  else if Ascii.eqb esc "t" then Some "009"%char
  else None.

Definition prepend (chunk : string) (r : exception + (string * string))
  : exception + (string * string) :=
  match r with
  | inl e => inl e
  | inr (content, rest) => inr (chunk ++ content, rest)
  end.

(** [py_scanstring], entered after the opening quote: the content of the
    string and the text after its closing quote. *)
Fixpoint scanstring (fuel : nat) (s : string) : exception + (string * string) :=
  match fuel with
  | O => inl RecursionError
  | S fuel' =>
      match s with
      | EmptyString => inl JSONDecodeError
      | String c rest =>
          if Ascii.eqb c dquote then inr (EmptyString, rest)
          else if Ascii.eqb c backslash then
            match rest with
            | EmptyString => inl JSONDecodeError
            | String esc rest1 =>
                if Ascii.eqb esc "u" then
                  match decode_uXXXX rest1 with
                  | None => inl JSONDecodeError
                  | Some (uni, rest2) =>
                      if ((55296 <=? uni) && (uni <=? 56319))%N%bool then
                        match rest2 with
                        | String b (String u rest3) =>
                            if (Ascii.eqb b backslash && Ascii.eqb u "u")%bool then
                              match decode_uXXXX rest3 with
                              | None => inl JSONDecodeError
                              | Some (uni2, rest4) =>
                                  if ((56320 <=? uni2) && (uni2 <=? 57343))%N%bool
                                  then prepend
                                         (chr (65536 + ((uni - 55296) * 1024 + (uni2 - 56320)))%N)
                                         (scanstring fuel' rest4)
                                  else prepend (chr uni) (scanstring fuel' rest2)
                              end
                            else prepend (chr uni) (scanstring fuel' rest2)
                        | _ => prepend (chr uni) (scanstring fuel' rest2)
                        end
                      else prepend (chr uni) (scanstring fuel' rest2)
                  end
                else
                  match escape_char esc with
                  | Some ch => prepend (String ch EmptyString) (scanstring fuel' rest1)
                  | None => inl JSONDecodeError
                  end
            end
          else if (nat_of_ascii c <? 32)%nat then inl JSONDecodeError
          else prepend (String c EmptyString) (scanstring fuel' rest)
      end
  end.

Definition scan_string (s : string) : exception + (string * string) :=
  scanstring (S (String.length s)) s.

(** [NUMBER_RE.match], group by group. The first group is the integer part
    with its sign: an optional minus, then 0 or a run of digits that does not
    start with 0. *)
Definition match_integer (s : string) : option (string * string) :=
  let (sign, s1) :=
    match s with
    | String c r => if Ascii.eqb c "-" then ("-", r) else (EmptyString, s)
    | EmptyString => (EmptyString, s)
    end in
  match s1 with
  | String c r =>
      if Ascii.eqb c "0" then Some (sign ++ "0", r)
      else if is_digit c
      then let (ds, r') := take_digits r in Some (sign ++ String c ds, r')
      else None
  | EmptyString => None
  end.

(** The second group, optional: a dot and at least one digit. *)
Definition match_frac (s : string) : option string * string :=
  match s with
  | String c r =>
      if Ascii.eqb c "." then
        match take_digits r with
        | (EmptyString, _) => (None, s)
        | (ds, r') => (Some (String c ds), r')
        end
      else (None, s)
  | EmptyString => (None, s)
  end.

(** The third group, optional: e or E, an optional sign, at least one
    digit. *)
Definition match_exp (s : string) : option string * string :=
  match s with
  | String e r =>
      if (Ascii.eqb e "e" || Ascii.eqb e "E")%bool then
        let (esign, r1) :=
          match r with
          | String c r' =>
              if (Ascii.eqb c "+" || Ascii.eqb c "-")%bool
              then (String c EmptyString, r')
              else (EmptyString, r)
          | EmptyString => (EmptyString, r)
          end in
        match take_digits r1 with
        | (EmptyString, _) => (None, s)
        | (ds, r2) => (Some (String e (esign ++ ds)), r2)
        end
      else (None, s)
  | EmptyString => (None, s)
  end.

(** [int(integer)] on the text of the first group. *)
Definition int_of_literal (integer : string) : Z :=
  match integer with
  | String c ds =>
      if Ascii.eqb c "-" then - int_of_digits 0 ds else int_of_digits 0 integer
  | EmptyString => 0
  end.

(** The limits of the interpreter that the decoder can meet. *)
Record limits : Type := Limits {
  max_nesting : nat;
  max_str_digits : nat
}.

Definition cpython_limits : limits := Limits 1000 4300.

(** The number of digits of the text of an integer, without its sign. *)
Definition count_digits (integer : string) : nat :=
  match integer with
  | String c ds => if Ascii.eqb c "-" then String.length ds else String.length integer
  | EmptyString => 0
  end.

(** The number at the front of [s], if there is one: an [int] when it has
    neither fraction nor exponent, a [float] otherwise. [int(integer)]
    raises a [ValueError] when the text has more digits than the limit. *)
Definition match_number (lim : limits) (s : string)
  : option (exception + (value * string)) :=
  match match_integer s with
  | None => None
  | Some (integer, s2) =>
      let (frac, s3) := match_frac s2 in
      let (exp, s4) := match_exp s3 in
      match frac, exp with
      | None, None =>
          if ((max_str_digits lim =? 0)%nat
              || (count_digits integer <=? max_str_digits lim)%nat)%bool
          then Some (inr (VInt (int_of_literal integer), s4))
          else Some (inl ValueError)
      | _, _ =>
          Some (inr (VFloat (integer
                             ++ match frac with Some f => f | None => EmptyString end
                             ++ match exp with Some x => x | None => EmptyString end),
                     s4))
      end
  end.

Fixpoint drop (n : nat) (s : string) : string :=
  match n, s with
  | S n', String _ rest => drop n' rest
  | _, _ => s
  end.

(** [dict(pairs)]: a later pair replaces the value of an earlier one with the
    same key, at the earlier one's place. *)
Fixpoint dict_set (key : string) (v : value) (entries : list (string * value))
  : list (string * value) :=
  match entries with
  | [] => [(key, v)]
  | (k, old) :: rest =>
      if String.eqb k key then (k, v) :: rest else (k, old) :: dict_set key v rest
  end.

Definition dict_of_pairs (pairs : list (string * value)) : list (string * value) :=
  fold_left (fun entries kv => dict_set (fst kv) (snd kv) entries) pairs [].

(** What a scanner answers: it ran out of fuel, it raised, or it read a
    value and stands at [rest]. *)
Inductive scan (A : Type) : Type :=
| OutOfFuel
| Fail (e : exception)
| Done (a : A) (rest : string).

Arguments OutOfFuel {A}.
Arguments Fail {A} e.
Arguments Done {A} a rest.

(** [scan_once] at the start of a value; [array_items] at the start of an
    element of an array; [object_items] after the opening quote of a key.
    [depth] is how many arrays and objects may still be entered, one inside
    the other: the scanner asks the interpreter before it enters one, also
    an empty one. *)
Fixpoint scan_once (fuel depth : nat) (lim : limits) (s : string) : scan value :=
  match fuel with
  | O => OutOfFuel
  | S fuel' =>
      match s with
      | EmptyString => Fail JSONDecodeError
      | String c rest =>
          if Ascii.eqb c dquote then
            match scan_string rest with
            | inl e => Fail e
            | inr (content, rest') => Done (VStr content) rest'
            end
          else if Ascii.eqb c "{" then
            match depth with
            | O => Fail RecursionError
            | S depth' =>
                match skip_whitespace rest with
                | String c1 rest1 =>
                    if Ascii.eqb c1 "}" then Done (VDict []) rest1
                    else if Ascii.eqb c1 dquote then
                      match object_items fuel' depth' lim rest1 with
                      | OutOfFuel => OutOfFuel
                      | Fail e => Fail e
                      | Done pairs rest' => Done (VDict (dict_of_pairs pairs)) rest'
                      end
                    else Fail JSONDecodeError
                | EmptyString => Fail JSONDecodeError
                end
            end
          else if Ascii.eqb c "[" then
            match depth with
            | O => Fail RecursionError
            | S depth' =>
                match skip_whitespace rest with
                | String c1 rest1 =>
                    if Ascii.eqb c1 "]" then Done (VList []) rest1
                    else
                      match array_items fuel' depth' lim (String c1 rest1) with
                      | OutOfFuel => OutOfFuel
                      | Fail e => Fail e
                      | Done items rest' => Done (VList items) rest'
                      end
                | EmptyString => Fail JSONDecodeError
                end
            end
          else if startswith s "null" then Done VNone (drop 4 s)
          else if startswith s "true" then Done (VBool true) (drop 4 s)
          else if startswith s "false" then Done (VBool false) (drop 5 s)
          else
            match match_number lim s with
            | Some (inr (v, rest')) => Done v rest'
            | Some (inl e) => Fail e
            | None =>
                if startswith s "NaN" then Done (VFloat "NaN") (drop 3 s)
                else if startswith s "Infinity" then Done (VFloat "Infinity") (drop 8 s)
                else if startswith s "-Infinity" then Done (VFloat "-Infinity") (drop 9 s)
                else Fail JSONDecodeError
            end
      end
  end

with array_items (fuel depth : nat) (lim : limits) (s : string) : scan (list value) :=
  match fuel with
  | O => OutOfFuel
  | S fuel' =>
      match scan_once fuel' depth lim s with
      | OutOfFuel => OutOfFuel
      | Fail e => Fail e
      | Done v rest =>
          match skip_whitespace rest with
          | String c rest1 =>
              if Ascii.eqb c "]" then Done [v] rest1
              else if Ascii.eqb c "," then
                match array_items fuel' depth lim (skip_whitespace rest1) with
                | OutOfFuel => OutOfFuel
                | Fail e => Fail e
                | Done items rest' => Done (v :: items) rest'
                end
              else Fail JSONDecodeError
          | EmptyString => Fail JSONDecodeError
          end
      end
  end

with object_items (fuel depth : nat) (lim : limits) (s : string)
  : scan (list (string * value)) :=
  match fuel with
  | O => OutOfFuel
  | S fuel' =>
      match scan_string s with
      | inl e => Fail e
      | inr (key, rest) =>
          match skip_whitespace rest with
          | String colon rest1 =>
              if Ascii.eqb colon ":" then
                match scan_once fuel' depth lim (skip_whitespace rest1) with
                | OutOfFuel => OutOfFuel
                | Fail e => Fail e
                | Done v rest2 =>
                    match skip_whitespace rest2 with
                    | String c rest3 =>
                        if Ascii.eqb c "}" then Done [(key, v)] rest3
                        else if Ascii.eqb c "," then
                          match skip_whitespace rest3 with
                          | String q rest4 =>
                              if Ascii.eqb q dquote then
                                match object_items fuel' depth lim rest4 with
                                | OutOfFuel => OutOfFuel
                                | Fail e => Fail e
                                | Done pairs rest' => Done ((key, v) :: pairs) rest'
                                end
                              else Fail JSONDecodeError
                          | EmptyString => Fail JSONDecodeError
                          end
                        else Fail JSONDecodeError
                    | EmptyString => Fail JSONDecodeError
                    end
                end
              else Fail JSONDecodeError
          | EmptyString => Fail JSONDecodeError
          end
      end
  end.

(** The byte order mark U+FEFF, which [json.loads] refuses at the start. *)
Definition bom : string := chr 65279.

(** [json.loads(s)] under the limits [lim]: one value, with whitespace
    allowed around it and nothing else after it. *)
Definition loads_with (lim : limits) (s : string) : exception + value :=
  if startswith s bom then inl JSONDecodeError
  else
    match scan_once (2 * String.length s + 2) (max_nesting lim) lim (skip_whitespace s) with
    | OutOfFuel => inl RecursionError
    | Fail e => inl e
    | Done v rest =>
        match skip_whitespace rest with
        | EmptyString => inr v
        | String _ _ => inl JSONDecodeError
        end
    end.

Definition loads (s : string) : exception + value := loads_with cpython_limits s.

(** [py_scanstring] makes progress on [s] when it does not stop for lack of
    fuel (its only exception is [JSONDecodeError]) and, if it returns,
    leaves less text than [s]. *)
Definition progress {A : Type} (s : string) (r : exception + (A * string)) : Prop :=
  match r with
  | inl e => e = JSONDecodeError
  | inr (_, rest) => (String.length rest < String.length s)%nat
  end.

(** The same for the scanners of values: they never answer [OutOfFuel],
    they raise nothing but [JSONDecodeError], [RecursionError] and
    [ValueError], and a value read leaves less text than [s]. *)
Definition advances {A : Type} (s : string) (r : scan A) : Prop :=
  match r with
  | OutOfFuel => False
  | Fail e => e = JSONDecodeError \/ e = RecursionError \/ e = ValueError
  | Done _ rest => (String.length rest < String.length s)%nat
  end.

(** Writing JSON text: [quoted s] is [s] between double quotes. *)
Definition quoted (s : string) : string :=
  String dquote (s ++ String dquote EmptyString).

(** [repeated n s] is [s] written [n] times. *)
Fixpoint repeated (n : nat) (s : string) : string :=
  match n with
  | O => EmptyString
  | S n' => s ++ repeated n' s
  end.

End Json.

(** ** Running the script as a process *)

(** How the interpreter ends: with an exit status, or with a traceback for an
    exception nobody caught (the traceback goes to standard error and the
    status is 1). *)
Inductive termination : Type :=
| Exit (status : Z)
| Traceback (e : exception).

Definition exit_status (t : termination) : Z :=
  match t with
  | Exit status => status
  | Traceback _ => 1
  end.

(** What a caller observes: the text the script wrote to each stream and how
    the process ended. *)
Record outcome : Type := Outcome {
  out : string;
  err : string;
  ending : termination
}.

(** An uncaught [SystemExit(code)] ends the process with status [code] (the
    script uses 0 and 2 only); falling off the end of the module gives 0. *)
Definition interpreter_exit {A : Type} (r : result A) : termination :=
  match r with
  | Return _ => Exit 0
  | Raise (SystemExit code) => Exit code
  | Raise (Exc e) => Traceback e
  end.

Definition run (json_loads : decoder) (input : string) : outcome :=
  let (r, w) := main json_loads (World input EmptyString EmptyString) in
  Outcome (stdout w) (stderr w) (interpreter_exit r).

(** The process on a standard input of bytes. *)
Definition run_bytes (decode : text_decoder) (json_loads : decoder) (input : string)
  : outcome :=
  let (r, w) := main_bytes json_loads decode (World input EmptyString EmptyString) in
  Outcome (stdout w) (stderr w) (interpreter_exit r).

(** The two effects of the specification. *)
Definition blocked_outcome : outcome := Outcome EmptyString reminder (Exit 2).
Definition allowed_outcome : outcome := Outcome guidance EmptyString (Exit 0).

(** The script on the decoder [Json.loads]. *)
Definition prompt_lint (input : string) : outcome := run Json.loads input.

(** The rule of the specification on a [str] prompt: it is not empty and its
    lowercase form does not hold the marker. *)
Definition rule_blocks (s : string) : Prop :=
  (0 < String.length s)%nat /\ str_contains marker (str_lower s) = false.

(** The specification's words "in any letter case", without [str_lower]:
    two characters are the same letter when they are equal, or when one is a
    capital A-Z and the other is the small letter 32 places after it. *)
Definition is_ascii_upper (c : ascii) : bool := in_range 65 90 c.

Definition same_letter (c d : ascii) : bool :=
  (Ascii.eqb c d
   || (is_ascii_upper c && (nat_of_ascii c + 32 =? nat_of_ascii d)%nat)
   || (is_ascii_upper d && (nat_of_ascii d + 32 =? nat_of_ascii c)%nat))%bool.

Fixpoint same_ignoring_case (s t : string) : bool :=
  match s, t with
  | EmptyString, EmptyString => true
  | String c s', String d t' => (same_letter c d && same_ignoring_case s' t')%bool
  | _, _ => false
  end.

(** The prompt holds the marker somewhere, in any mix of letter cases. *)
Definition holds_marker_in_any_case (s : string) : Prop :=
  exists pre m post, s = pre ++ m ++ post /\ same_ignoring_case m marker = true.

(** The number of characters (code points) of the text whose UTF-8 bytes
    are [s], which is what Python's [len] counts: every byte starts a
    character except the continuation bytes 128-191. *)
Fixpoint code_points (s : string) : nat :=
  match s with
  | EmptyString => 0
  | String c rest => ((if continuation c then 0 else 1) + code_points rest)%nat
  end.

(** JSON text of an object with the single key ["prompt"]; [v] is the JSON
    text of its value. *)
Definition prompt_object (v : string) : string :=
  "{" ++ Json.quoted "prompt" ++ ": " ++ v ++ "}".

(** JSON text of an object whose prompt is the string [prompt] and whose
    entry ["n"] is the number written with [digits] ones. *)
Definition prompt_and_number (prompt : string) (digits : N) : string :=
  "{" ++ Json.quoted "prompt" ++ ": " ++ Json.quoted prompt ++ ", "
  ++ Json.quoted "n" ++ ": " ++ Json.repeated (N.to_nat digits) "1" ++ "}".

(** JSON text of an object whose prompt is the string [prompt] and whose
    entry ["x"] is an empty array inside [depth - 1] arrays. *)
Definition prompt_and_nesting (prompt : string) (depth : N) : string :=
  "{" ++ Json.quoted "prompt" ++ ": " ++ Json.quoted prompt ++ ", "
  ++ Json.quoted "x" ++ ": " ++ Json.repeated (N.to_nat depth) "["
  ++ Json.repeated (N.to_nat depth) "]" ++ "}".

(** The prompts on which line 10 does not reach a verdict on a string, by
    their Python type: [None], [bool], [int] and [float] have no [len]; a
    non-empty [list] or [dict] has a [len] but no [lower]; an empty [list]
    or [dict] has length 0. *)
Definition unsized (p : value) : bool :=
  match p with
  | VNone | VBool _ | VInt _ | VFloat _ => true
  | _ => false
  end.

Definition nonempty_container (p : value) : bool :=
  match p with
  | VList (_ :: _) | VDict (_ :: _) => true
  | _ => false
  end.

Definition empty_container (p : value) : bool :=
  match p with
  | VList [] | VDict [] => true
  | _ => false
  end.

(** * Properties *)

(** ** Strings *)

Lemma startswith_app (p rest : string) : startswith (p ++ rest) p = true.
Proof.
  induction p as [|c p IH]; simpl.
  - reflexivity.
  - rewrite Ascii.eqb_refl. exact IH.
Qed.

Lemma startswith_inv (p s : string) :
  startswith s p = true -> exists rest, s = p ++ rest.
Proof.
  revert s. induction p as [|c p IH]; intros s H; simpl in H.
  - exists s. reflexivity.
  - destruct s as [|d s]; [discriminate|].
    apply andb_true_iff in H. destruct H as [Hc Hp].
    apply Ascii.eqb_eq in Hc. subst d.
    destruct (IH s Hp) as [rest ->].
    exists rest. reflexivity.
Qed.

Lemma startswith_contains (sub s : string) :
  startswith s sub = true -> str_contains sub s = true.
Proof. intros H. destruct s; simpl; rewrite H; reflexivity. Qed.

(** [str_contains] is the substring relation. *)
Lemma str_contains_spec (sub s : string) :
  str_contains sub s = true <-> exists pre post, s = pre ++ sub ++ post.
Proof.
  split.
  - induction s as [|c s IH]; simpl; intros H.
    + rewrite orb_false_r in H. apply startswith_inv in H.
      destruct H as [rest H]. exists EmptyString, rest. exact H.
    + apply orb_true_iff in H. destruct H as [H|H].
      * apply startswith_inv in H. destruct H as [rest H].
        exists EmptyString, rest. exact H.
      * destruct (IH H) as (pre & post & ->).
        exists (String c pre), post. reflexivity.
  - intros (pre & post & ->).
    induction pre as [|c pre IH]; simpl.
    + apply startswith_contains, startswith_app.
    + rewrite IH. apply orb_true_r.
Qed.

Lemma str_lower_app (a b : string) :
  str_lower (a ++ b) = str_lower a ++ str_lower b.
Proof.
  induction a as [|c a IH]; simpl; [reflexivity | now rewrite IH].
Qed.

(** A prompt that holds the marker in any letter case, anywhere, holds it in
    lowercase after [str_lower]. *)
Lemma marker_any_case (pre m post : string) :
  str_lower m = marker ->
  str_contains marker (str_lower (pre ++ m ++ post)) = true.
Proof.
  intros Hm. apply str_contains_spec.
  exists (str_lower pre), (str_lower post).
  now rewrite !str_lower_app, Hm.
Qed.


Lemma string_length_app (a b : string) :
  String.length (a ++ b) = (String.length a + String.length b)%nat.
Proof. induction a as [|c a IH]; simpl; [reflexivity | now rewrite IH]. Qed.

Lemma string_app_assoc (a b c : string) : (a ++ b) ++ c = a ++ b ++ c.
Proof. induction a as [|x a IH]; simpl; [reflexivity | now rewrite IH]. Qed.

Lemma str_lower_length (s : string) : String.length (str_lower s) = String.length s.
Proof. induction s as [|c s IH]; simpl; [reflexivity | now rewrite IH]. Qed.

Lemma str_contains_length (sub s : string) :
  str_contains sub s = true -> (String.length sub <= String.length s)%nat.
Proof.
  intros H. apply str_contains_spec in H. destruct H as (pre & post & ->).
  rewrite !string_length_app. lia.
Qed.

(** A split of the lowercase form comes from a split of the string. *)
Lemma str_lower_split (s a b : string) :
  str_lower s = a ++ b ->
  exists a' b', s = a' ++ b' /\ str_lower a' = a /\ str_lower b' = b.
Proof.
  revert s. induction a as [|c a IH]; intros s H.
  - exists EmptyString, s. repeat split. exact H.
  - destruct s as [|d s]; [discriminate|].
    simpl in H. inversion H as [[Hc Hrest]].
    destruct (IH s Hrest) as (a' & b' & -> & Ha & Hb).
    exists (String d a'), b'. simpl. rewrite Ha, Hb. repeat split.
Qed.

(** ** Letter case *)

Lemma same_letter_lower (c d : ascii) :
  same_letter c d = true -> lower_char c = lower_char d.
Proof.
  assert (Hpair : forall x y,
    is_ascii_upper x = true -> (nat_of_ascii x + 32 =? nat_of_ascii y)%nat = true ->
    lower_char x = lower_char y).
  { intros x y Hx Hxy. apply Nat.eqb_eq in Hxy.
    unfold is_ascii_upper, in_range in Hx. unfold lower_char.
    rewrite Hx. apply andb_true_iff in Hx. destruct Hx as [H1 H2].
    apply Nat.leb_le in H1. apply Nat.leb_le in H2.
    rewrite Hxy, ascii_nat_embedding.
    destruct (nat_of_ascii y <=? 90)%nat eqn:E.
    - apply Nat.leb_le in E. lia.
    - now rewrite andb_false_r. }
  unfold same_letter. intros H.
  apply orb_true_iff in H. destruct H as [H|H].
  - apply orb_true_iff in H. destruct H as [H|H].
    + apply Ascii.eqb_eq in H. now subst.
    + apply andb_true_iff in H. destruct H as [Hu He]. now apply Hpair.
  - apply andb_true_iff in H. destruct H as [Hu He]. symmetry. now apply Hpair.
Qed.

Lemma same_letter_lower_char (c : ascii) : same_letter c (lower_char c) = true.
Proof.
  unfold same_letter, lower_char, is_ascii_upper, in_range.
  destruct ((65 <=? nat_of_ascii c)%nat && (nat_of_ascii c <=? 90)%nat)%bool eqn:E.
  - apply andb_true_iff in E. destruct E as [H1 H2].
    apply Nat.leb_le in H1. apply Nat.leb_le in H2.
    rewrite nat_ascii_embedding by lia.
    rewrite Nat.eqb_refl. simpl. now rewrite orb_true_r.
  - now rewrite Ascii.eqb_refl.
Qed.

Lemma same_ignoring_case_lower (s t : string) :
  same_ignoring_case s t = true -> str_lower s = str_lower t.
Proof.
  revert t. induction s as [|c s IH]; intros [|d t] H; try discriminate.
  - reflexivity.
  - simpl in H. apply andb_true_iff in H. destruct H as [Hc Hs].
    simpl. now rewrite (same_letter_lower c d Hc), (IH t Hs).
Qed.

Lemma same_ignoring_case_str_lower (s : string) :
  same_ignoring_case s (str_lower s) = true.
Proof.
  induction s as [|c s IH]; simpl; [reflexivity|].
  now rewrite same_letter_lower_char, IH.
Qed.

(** The test of line 10 finds the marker exactly when the prompt holds it in
    some mix of letter cases. *)
Lemma holds_marker_iff (s : string) :
  holds_marker_in_any_case s <-> str_contains marker (str_lower s) = true.
Proof.
  split.
  - intros (pre & m & post & -> & Hm).
    apply marker_any_case. now rewrite (same_ignoring_case_lower m marker Hm).
  - intros H. apply str_contains_spec in H. destruct H as (a & b & Hsplit).
    destruct (str_lower_split _ _ _ Hsplit) as (pre & rest & Hs1 & Ha & Hrest).
    destruct (str_lower_split _ _ _ Hrest) as (m & post & Hs2 & Hm & Hb).
    exists pre, m, post. split; [now rewrite Hs1, Hs2|].
    rewrite <- Hm. apply same_ignoring_case_str_lower.
Qed.

(** ** The script, step by step *)

Section Properties.

Variable json_loads : decoder.

(** Lines 4-8 never raise and never touch a stream; the prompt they leave is
    the ["prompt"] entry of a decoded object, and the empty string in every
    other case. *)
Lemma extract_prompt_cases (data : string) :
  extracts json_loads data
    match json_loads data with
    | inr (VDict entries) =>
        match dict_lookup "prompt" entries with
        | Some v => v
        | None => VStr EmptyString
        end
    | _ => VStr EmptyString
    end.
Proof.
  intros w. unfold extract_prompt, try_except_Exception, bind, call.
  destruct (json_loads data) as [e|obj]; [reflexivity|].
  destruct obj; try reflexivity.
  simpl. destruct (dict_lookup "prompt" entries); reflexivity.
Qed.

Lemma extracts_unique (data : string) (p q : value) :
  extracts json_loads data p -> extracts json_loads data q -> p = q.
Proof.
  intros Hp Hq.
  pose proof (Hp (World EmptyString EmptyString EmptyString)) as H1.
  rewrite (Hq (World EmptyString EmptyString EmptyString)) in H1.
  now inversion H1.
Qed.

(** Line 10 on a [str]. *)
Lemma lacks_acceptance_str (s : string) (w : world) :
  lacks_acceptance (VStr s) w =
  (Return ((0 <? Z.of_nat (String.length s)) &&
           negb (str_contains marker (str_lower s)))%bool, w).
Proof.
  unfold lacks_acceptance, bind, len, lower, ret. simpl.
  destruct (0 <? Z.of_nat (String.length s)); reflexivity.
Qed.

(** Line 10 never touches a stream, and raises nothing but an
    [Exception]. *)
Lemma lacks_acceptance_frame (prompt : value) :
  (exists b, forall w, lacks_acceptance prompt w = (Return b, w)) \/
  (exists e, forall w, lacks_acceptance prompt w = (Raise (Exc e), w)).
Proof.
  destruct prompt as [| b | n | lit | s | items | entries].
  5: { left. eexists. intros w. apply lacks_acceptance_str. }
  all: unfold lacks_acceptance, bind, len, lower, ret, raise; simpl;
    try (right; eexists; intros w; reflexivity).
  - destruct (0 <? Z.of_nat (List.length items)) eqn:E.
    + right. eexists. intros w. reflexivity.
    + left. eexists. intros w. reflexivity.
  - destruct (0 <? Z.of_nat (List.length entries)) eqn:E.
    + right. eexists. intros w. reflexivity.
    + left. eexists. intros w. reflexivity.
Qed.

(** The module body, once the prompt is known. *)
Lemma main_steps (data : string) (prompt : value) (w : world) :
  extracts json_loads data prompt ->
  stdin w = data ->
  main json_loads w =
  match lacks_acceptance prompt (World EmptyString (stdout w) (stderr w)) with
  | (Return true, w1) =>
      (Raise (SystemExit 2), World (stdin w1) (stdout w1) (stderr w1 ++ reminder))
  | (Return false, w1) =>
      (Raise (SystemExit 0), World (stdin w1) (stdout w1 ++ guidance) (stderr w1))
  | (Raise e, w1) => (Raise e, w1)
  end.
Proof.
  intros Hext Hin. unfold main, lint, bind, sys_stdin_read.
  rewrite Hin, (Hext _).
  destruct (lacks_acceptance prompt _) as [[[|]|e] w1]; reflexivity.
Qed.

Lemma main_blocked (data : string) (w : world) :
  has_verdict json_loads data Blocked ->
  stdin w = data ->
  main json_loads w =
  (Raise (SystemExit 2), World EmptyString (stdout w) (stderr w ++ reminder)).
Proof.
  intros (prompt & Hext & Hcond) Hin.
  rewrite (main_steps data prompt w Hext Hin), Hcond. reflexivity.
Qed.

Lemma main_allowed (data : string) (w : world) :
  has_verdict json_loads data Allowed ->
  stdin w = data ->
  main json_loads w =
  (Raise (SystemExit 0), World EmptyString (stdout w ++ guidance) (stderr w)).
Proof.
  intros (prompt & Hext & Hcond) Hin.
  rewrite (main_steps data prompt w Hext Hin), Hcond. reflexivity.
Qed.

Lemma main_uncaught (data : string) (prompt : value) (e : exception) (w : world) :
  extracts json_loads data prompt ->
  (forall w', lacks_acceptance prompt w' = (Raise (Exc e), w')) ->
  stdin w = data ->
  main json_loads w = (Raise (Exc e), World EmptyString (stdout w) (stderr w)).
Proof.
  intros Hext Hcond Hin.
  rewrite (main_steps data prompt w Hext Hin), Hcond. reflexivity.
Qed.

Lemma run_blocked (data : string) :
  has_verdict json_loads data Blocked -> run json_loads data = blocked_outcome.
Proof.
  intros H. unfold run.
  rewrite (main_blocked data (World data EmptyString EmptyString) H eq_refl). reflexivity.
Qed.

Lemma run_allowed (data : string) :
  has_verdict json_loads data Allowed -> run json_loads data = allowed_outcome.
Proof.
  intros H. unfold run.
  rewrite (main_allowed data (World data EmptyString EmptyString) H eq_refl). reflexivity.
Qed.

Lemma run_uncaught (data : string) (prompt : value) (e : exception) :
  extracts json_loads data prompt ->
  (forall w, lacks_acceptance prompt w = (Raise (Exc e), w)) ->
  run json_loads data = Outcome EmptyString EmptyString (Traceback e).
Proof.
  intros Hext Hcond. unfold run.
  rewrite (main_uncaught data prompt e (World data EmptyString EmptyString) Hext Hcond eq_refl). reflexivity.
Qed.

Lemma blocked_allowed_differ : blocked_outcome <> allowed_outcome.
Proof. discriminate. Qed.

(** A prompt has at most one verdict. *)
Lemma verdict_unique (data : string) (u v : verdict) :
  has_verdict json_loads data u -> has_verdict json_loads data v -> u = v.
Proof.
  intros (p & Hp & Hu) (q & Hq & Hv).
  rewrite (extracts_unique data p q Hp Hq) in Hu.
  pose proof (Hu (World EmptyString EmptyString EmptyString)) as H.
  rewrite Hv in H. inversion H as [H1].
  destruct u, v; simpl in H1; congruence.
Qed.

(** The verdict on a [str] prompt. *)
Lemma verdict_of_str (data s : string) :
  extracts json_loads data (VStr s) ->
  has_verdict json_loads data
    (if ((0 <? Z.of_nat (String.length s)) &&
         negb (str_contains marker (str_lower s)))%bool
     then Blocked else Allowed).
Proof.
  intros Hext. exists (VStr s). split; [exact Hext|].
  intros w. rewrite lacks_acceptance_str.
  destruct ((0 <? Z.of_nat (String.length s)) &&
            negb (str_contains marker (str_lower s)))%bool; reflexivity.
Qed.

Lemma condition_true_iff (s : string) :
  ((0 <? Z.of_nat (String.length s)) &&
   negb (str_contains marker (str_lower s)))%bool = true <->
  (0 < String.length s)%nat /\ str_contains marker (str_lower s) = false.
Proof.
  rewrite andb_true_iff, negb_true_iff, Z.ltb_lt. split; intros [H1 H2]; split; auto; lia.
Qed.

End Properties.

(** ** The scenarios of the specification, run on [Json.loads] *)

Example scenario_no_criteria :
  prompt_lint (prompt_object (Json.quoted "Write a function that reverses a string."))
  = blocked_outcome.
Proof. vm_compute. reflexivity. Qed.

Example scenario_with_criteria :
  prompt_lint (prompt_object (Json.quoted
    "Write a function; acceptance: output must be a palindrome-safe reverse."))
  = allowed_outcome.
Proof. vm_compute. reflexivity. Qed.

Example scenario_empty_object : prompt_lint "{}" = allowed_outcome.
Proof. vm_compute. reflexivity. Qed.

Example scenario_not_json : prompt_lint "not valid json" = allowed_outcome.
Proof. vm_compute. reflexivity. Qed.

Example scenario_empty_prompt :
  prompt_lint (prompt_object (Json.quoted EmptyString)) = allowed_outcome.
Proof. vm_compute. reflexivity. Qed.

(** ** The verdict rule *)

(** C1: for a string prompt extracted from the input, the verdict is Blocked
    (reminder on standard error, exit status 2) exactly when the prompt is
    not empty and its lowercase form does not contain [acceptance]; in every
    other case the verdict is Allowed (guidance on standard output, exit
    status 0). That covers the empty prompt and a prompt that holds the
    marker in any letter case, also inside a longer word: stated without
    [str_lower], the prompt is Blocked exactly when it is not empty and no
    run of its characters spells the marker up to the case of its letters. *)
Theorem verdict_rule (json_loads : decoder) (data s : string) :
  extracts json_loads data (VStr s) ->
  (has_verdict json_loads data Blocked <-> rule_blocks s) /\
  (has_verdict json_loads data Allowed <-> ~ rule_blocks s) /\
  (run json_loads data = blocked_outcome <-> rule_blocks s) /\
  (run json_loads data = allowed_outcome <-> ~ rule_blocks s) /\
  (s = EmptyString -> run json_loads data = allowed_outcome) /\
  (forall pre m post,
      s = pre ++ m ++ post -> str_lower m = marker ->
      run json_loads data = allowed_outcome) /\
  (run json_loads data = blocked_outcome <->
   s <> EmptyString /\ ~ holds_marker_in_any_case s) /\
  (run json_loads data = allowed_outcome <->
   s = EmptyString \/ holds_marker_in_any_case s).
Proof.
  intros Hext.
  pose proof (verdict_of_str json_loads data s Hext) as Hv.
  pose proof (condition_true_iff s) as Hc. fold (rule_blocks s) in Hc.
  assert (Hcases :
    (rule_blocks s /\ has_verdict json_loads data Blocked) \/
    (~ rule_blocks s /\ has_verdict json_loads data Allowed)).
  { destruct ((0 <? Z.of_nat (String.length s)) &&
              negb (str_contains marker (str_lower s)))%bool.
    - left. split; [now apply Hc | exact Hv].
    - right. split; [|exact Hv]. intros H. apply Hc in H. discriminate. }
  assert (Hallowed : ~ rule_blocks s -> run json_loads data = allowed_outcome).
  { intros Hn. destruct Hcases as [[Hr _]|[_ Ha]]; [contradiction|].
    now apply run_allowed. }
  assert (Hblocked : run json_loads data = blocked_outcome <-> rule_blocks s).
  { split.
    - intros Hrun. destruct Hcases as [[Hr _]|[_ Ha]]; [exact Hr|].
      rewrite (run_allowed json_loads data Ha) in Hrun.
      symmetry in Hrun. now apply blocked_allowed_differ in Hrun.
    - intros Hr. destruct Hcases as [[_ Hb]|[Hn _]]; [|contradiction].
      now apply run_blocked. }
  assert (Hallowed_iff : run json_loads data = allowed_outcome <-> ~ rule_blocks s).
  { split; [|exact Hallowed].
    intros Hrun Hr. destruct Hcases as [[_ Hb]|[Hn _]]; [|contradiction].
    rewrite (run_blocked json_loads data Hb) in Hrun.
    now apply blocked_allowed_differ in Hrun. }
  (* the rule, said with the letters of the prompt *)
  assert (Hrule : rule_blocks s <-> s <> EmptyString /\ ~ holds_marker_in_any_case s).
  { unfold rule_blocks. rewrite holds_marker_iff. split.
    - intros [Hlen Hno]. split.
      + intros ->. simpl in Hlen. lia.
      + rewrite Hno. discriminate.
    - intros [Hne Hno]. split.
      + destruct s; [now destruct Hne | simpl; lia].
      + now destruct (str_contains marker (str_lower s)); [destruct Hno|]. }
  refine (conj (conj _ _) (conj (conj _ _) (conj Hblocked
           (conj Hallowed_iff (conj _ (conj _ (conj _ _))))))).
  - intros Hb. destruct Hcases as [[Hr _]|[_ Ha]]; [exact Hr|].
    pose proof (verdict_unique json_loads data _ _ Hb Ha). discriminate.
  - intros Hr. destruct Hcases as [[_ Hb]|[Hn _]]; [exact Hb | contradiction].
  - intros Ha Hr. destruct Hcases as [[_ Hb]|[Hn _]]; [|contradiction].
    pose proof (verdict_unique json_loads data _ _ Hb Ha). discriminate.
  - intros Hn. destruct Hcases as [[Hr _]|[_ Ha]]; [contradiction | exact Ha].
  - intros ->. apply Hallowed. intros [Hlen _]. simpl in Hlen. lia.
  - intros pre m post -> Hm. apply Hallowed. intros [_ Hno].
    rewrite (marker_any_case pre m post Hm) in Hno. discriminate.
  - now rewrite Hblocked.
  - rewrite Hallowed_iff, Hrule. split.
    + intros Hn. destruct s as [|c s]; [now left|]. right.
      apply holds_marker_iff.
      destruct (str_contains marker (str_lower (String c s))) eqn:E; [reflexivity|].
      exfalso. apply Hn. split; [discriminate|].
      rewrite holds_marker_iff, E. discriminate.
    + intros [-> | Hm] [Hne Hno]; [now apply Hne | now apply Hno].
Qed.

(** The rule at a prompt without the marker, at the marker in capitals and
    at the marker with one capital inside a longer word. *)
Lemma verdict_rule_witness :
  (extracts Json.loads (prompt_object (Json.quoted "Refactor the parser"))
     (VStr "Refactor the parser") /\
   rule_blocks "Refactor the parser" /\
   run Json.loads (prompt_object (Json.quoted "Refactor the parser")) = blocked_outcome) /\
  (extracts Json.loads (prompt_object (Json.quoted "ACCEPTANCE CRITERIA"))
     (VStr "ACCEPTANCE CRITERIA") /\
   holds_marker_in_any_case "ACCEPTANCE CRITERIA" /\
   run Json.loads (prompt_object (Json.quoted "ACCEPTANCE CRITERIA")) = allowed_outcome) /\
  (extracts Json.loads (prompt_object (Json.quoted "run the pre-Acceptance checks"))
     (VStr "run the pre-Acceptance checks") /\
   holds_marker_in_any_case "run the pre-Acceptance checks" /\
   run Json.loads (prompt_object (Json.quoted "run the pre-Acceptance checks"))
   = allowed_outcome).
Proof.
  assert (H1 : extracts Json.loads (prompt_object (Json.quoted "Refactor the parser"))
                 (VStr "Refactor the parser")).
  { intros w. vm_compute. reflexivity. }
  assert (R1 : rule_blocks "Refactor the parser").
  { split; [simpl; lia | vm_compute; reflexivity]. }
  assert (H2 : extracts Json.loads (prompt_object (Json.quoted "ACCEPTANCE CRITERIA"))
                 (VStr "ACCEPTANCE CRITERIA")).
  { intros w. vm_compute. reflexivity. }
  assert (R2 : holds_marker_in_any_case "ACCEPTANCE CRITERIA").
  { exists EmptyString, "ACCEPTANCE", " CRITERIA". split; reflexivity. }
  assert (H3 : extracts Json.loads
                 (prompt_object (Json.quoted "run the pre-Acceptance checks"))
                 (VStr "run the pre-Acceptance checks")).
  { intros w. vm_compute. reflexivity. }
  assert (R3 : holds_marker_in_any_case "run the pre-Acceptance checks").
  { exists "run the pre-", "Acceptance", " checks". split; reflexivity. }
  split; [|split].
  - split; [exact H1 | split; [exact R1|]].
    exact (proj2 (proj1 (proj2 (proj2 (verdict_rule Json.loads _ _ H1)))) R1).
  - split; [exact H2 | split; [exact R2|]].
    apply (proj2 (proj2 (proj2 (proj2 (proj2 (proj2 (proj2
             (verdict_rule Json.loads _ _ H2)))))))).
    right. exact R2.
  - split; [exact H3 | split; [exact R3|]].
    apply (proj2 (proj2 (proj2 (proj2 (proj2 (proj2 (proj2
             (verdict_rule Json.loads _ _ H3)))))))).
    right. exact R3.
Defined.

(** ** Inputs without a usable prompt *)


(** Line 3 on a standard input of bytes. *)
Lemma main_bytes_text (json_loads : decoder) (decode : text_decoder)
    (w : world) (text : string) :
  decode (stdin w) = inr text ->
  main_bytes json_loads decode w = main json_loads (World text (stdout w) (stderr w)).
Proof.
  intros H. unfold main_bytes, main, bind, sys_stdin_read_decoding, sys_stdin_read.
  rewrite H. reflexivity.
Qed.

Lemma main_bytes_undecodable (json_loads : decoder) (decode : text_decoder)
    (w : world) (e : exception) :
  decode (stdin w) = inl e ->
  main_bytes json_loads decode w
  = (Raise (Exc e), World EmptyString (stdout w) (stderr w)).
Proof.
  intros H. unfold main_bytes, bind, sys_stdin_read_decoding.
  rewrite H. reflexivity.
Qed.

Lemma run_bytes_text (decode : text_decoder) (json_loads : decoder) (bytes text : string) :
  decode bytes = inr text ->
  run_bytes decode json_loads bytes = run json_loads text.
Proof.
  intros H. unfold run_bytes, run.
  now rewrite (main_bytes_text json_loads decode (World bytes EmptyString EmptyString) text H).
Qed.

Lemma run_bytes_undecodable (decode : text_decoder) (json_loads : decoder)
    (bytes : string) (e : exception) :
  decode bytes = inl e ->
  run_bytes decode json_loads bytes = Outcome EmptyString EmptyString (Traceback e).
Proof.
  intros H. unfold run_bytes.
  now rewrite (main_bytes_undecodable json_loads decode
                 (World bytes EmptyString EmptyString) e H).
Qed.




(** C4: when the decoded value is not an object, or is an object without the
    key ["prompt"], the prompt is the empty string, no exception leaves the
    script, and the verdict is Allowed with exit status 0. *)
Theorem missing_prompt_allowed (json_loads : decoder) (data : string) (obj : value) :
  json_loads data = inr obj ->
  (forall entries, obj <> VDict entries) \/
  (exists entries, obj = VDict entries /\ dict_lookup "prompt" entries = None) ->
  extracts json_loads data (VStr EmptyString) /\
  has_verdict json_loads data Allowed /\
  run json_loads data = allowed_outcome /\
  exit_status (ending (run json_loads data)) = 0.
Proof.
  intros Hload Hshape.
  assert (Hext : extracts json_loads data (VStr EmptyString)).
  { pose proof (extract_prompt_cases json_loads data) as H.
    rewrite Hload in H.
    destruct Hshape as [Hnot | (entries & -> & Habsent)].
    - destruct obj; try exact H. now destruct (Hnot entries).
    - now rewrite Habsent in H. }
  pose proof (verdict_of_str json_loads data EmptyString Hext) as Hv.
  simpl in Hv.
  split; [exact Hext|]. split; [exact Hv|].
  rewrite (run_allowed json_loads data Hv). split; reflexivity.
Qed.

Lemma missing_prompt_allowed_witness :
  (Json.loads "[1, 2]" = inr (VList [VInt 1; VInt 2]) /\
   run Json.loads "[1, 2]" = allowed_outcome) /\
  (Json.loads ("{" ++ Json.quoted "task" ++ ": 7}") = inr (VDict [("task", VInt 7)]) /\
   run Json.loads ("{" ++ Json.quoted "task" ++ ": 7}") = allowed_outcome).
Proof.
  assert (H1 : Json.loads "[1, 2]" = inr (VList [VInt 1; VInt 2])).
  { vm_compute. reflexivity. }
  assert (H2 : Json.loads ("{" ++ Json.quoted "task" ++ ": 7}")
               = inr (VDict [("task", VInt 7)])).
  { vm_compute. reflexivity. }
  split; split; [exact H1 | | exact H2 | ].
  - refine (proj1 (proj2 (proj2 (missing_prompt_allowed Json.loads _ _ H1 _)))).
    left. discriminate.
  - refine (proj1 (proj2 (proj2 (missing_prompt_allowed Json.loads _ _ H2 _)))).
    right. eexists. split; reflexivity.
Defined.

(** ** The two effects *)

(** C6: on a Blocked verdict the script appends exactly the reminder
    sentence and a newline to standard error, writes nothing to standard
    output, and ends with exit status 2. *)
Theorem blocked_effect (json_loads : decoder) (data : string) :
  has_verdict json_loads data Blocked ->
  run json_loads data =
    Outcome EmptyString
      ("Please include acceptance criteria in your prompt (exit=2 to block)."
       ++ String "010" EmptyString)
      (Exit 2) /\
  (forall w, stdin w = data ->
     main json_loads w =
       (Raise (SystemExit 2),
        World EmptyString (stdout w)
          (stderr w ++
           "Please include acceptance criteria in your prompt (exit=2 to block)."
           ++ String "010" EmptyString))).
Proof.
  intros H. split.
  - exact (run_blocked json_loads data H).
  - intros w Hin. exact (main_blocked json_loads data w H Hin).
Qed.

Lemma blocked_effect_witness :
  has_verdict Json.loads (prompt_object (Json.quoted "Fix the login bug")) Blocked /\
  exit_status (ending (run Json.loads (prompt_object (Json.quoted "Fix the login bug")))) = 2.
Proof.
  assert (H : has_verdict Json.loads (prompt_object (Json.quoted "Fix the login bug")) Blocked).
  { exists (VStr "Fix the login bug").
    split; intros w; vm_compute; reflexivity. }
  split; [exact H|].
  rewrite (proj1 (blocked_effect Json.loads _ H)). reflexivity.
Defined.

(** C7: on an Allowed verdict the script appends exactly the guidance
    sentence, with no newline after it, to standard output, writes nothing to
    standard error, and ends with exit status 0. *)
Theorem allowed_effect (json_loads : decoder) (data : string) :
  has_verdict json_loads data Allowed ->
  run json_loads data =
    Outcome "Consider: objective, constraints, acceptance criteria, and test plan."
      EmptyString (Exit 0) /\
  (forall w, stdin w = data ->
     main json_loads w =
       (Raise (SystemExit 0),
        World EmptyString
          (stdout w ++
           "Consider: objective, constraints, acceptance criteria, and test plan.")
          (stderr w))).
Proof.
  intros H. split.
  - exact (run_allowed json_loads data H).
  - intros w Hin. exact (main_allowed json_loads data w H Hin).
Qed.

Lemma allowed_effect_witness :
  has_verdict Json.loads (prompt_object (Json.quoted "Add a cache; Acceptance: p99 under 5 ms")) Allowed /\
  exit_status
    (ending (run Json.loads
       (prompt_object (Json.quoted "Add a cache; Acceptance: p99 under 5 ms")))) = 0.
Proof.
  assert (H : has_verdict Json.loads
                (prompt_object (Json.quoted "Add a cache; Acceptance: p99 under 5 ms")) Allowed).
  { exists (VStr "Add a cache; Acceptance: p99 under 5 ms").
    split; intros w; vm_compute; reflexivity. }
  split; [exact H|].
  rewrite (proj1 (allowed_effect Json.loads _ H)). reflexivity.
Defined.

(** ** What the result depends on *)

Lemma append_empty_r (s : string) : s ++ EmptyString = s.
Proof. induction s as [|c s IH]; simpl; [reflexivity | now rewrite IH]. Qed.

(** Every input has a verdict, or line 10 raises on its prompt. *)
Lemma verdict_or_exception (json_loads : decoder) (data : string) :
  has_verdict json_loads data Blocked \/
  has_verdict json_loads data Allowed \/
  (exists prompt e,
      extracts json_loads data prompt /\
      forall w, lacks_acceptance prompt w = (Raise (Exc e), w)).
Proof.
  pose proof (extract_prompt_cases json_loads data) as Hext.
  set (prompt := match json_loads data with
                 | inr (VDict entries) =>
                     match dict_lookup "prompt" entries with
                     | Some v => v
                     | None => VStr EmptyString
                     end
                 | _ => VStr EmptyString
                 end) in Hext.
  destruct (lacks_acceptance_frame prompt) as [[[|] Hb] | [e He]].
  - left. exists prompt. split; assumption.
  - right. left. exists prompt. split; assumption.
  - right. right. exists prompt, e. split; assumption.
Qed.

(** A run produces one of the two effects, or a traceback with nothing
    written by the script; it never writes to both streams. *)
Lemma run_cases (json_loads : decoder) (data : string) :
  run json_loads data = blocked_outcome \/
  run json_loads data = allowed_outcome \/
  exists e, run json_loads data = Outcome EmptyString EmptyString (Traceback e).
Proof.
  destruct (verdict_or_exception json_loads data) as [H | [H | (p & e & Hp & He)]].
  - left. now apply run_blocked.
  - right. left. now apply run_allowed.
  - right. right. exists e. exact (run_uncaught json_loads data p e Hp He).
Qed.

(** The exit status is 2 or 0 when the input has a verdict, and 1, with a
    traceback, when line 10 raises. *)
Lemma exit_status_cases (json_loads : decoder) (data : string) :
  (has_verdict json_loads data Blocked /\
   exit_status (ending (run json_loads data)) = 2) \/
  (has_verdict json_loads data Allowed /\
   exit_status (ending (run json_loads data)) = 0) \/
  ((exists e, ending (run json_loads data) = Traceback e) /\
   exit_status (ending (run json_loads data)) = 1).
Proof.
  destruct (verdict_or_exception json_loads data) as [H | [H | (p & e & Hp & He)]].
  - left. split; [exact H|]. now rewrite (run_blocked json_loads data H).
  - right. left. split; [exact H|]. now rewrite (run_allowed json_loads data H).
  - right. right. rewrite (run_uncaught json_loads data p e Hp He). simpl.
    split; [now exists e | reflexivity].
Qed.

Lemma never_both_streams (json_loads : decoder) (data : string) :
  out (run json_loads data) = EmptyString \/ err (run json_loads data) = EmptyString.
Proof.
  destruct (run_cases json_loads data) as [H | [H | [e H]]]; rewrite H; simpl; auto.
Qed.

(** Two inputs with the same prompt are told apart by nothing. *)
Lemma run_depends_on_prompt (json_loads : decoder) (d1 d2 : string) (prompt : value) :
  extracts json_loads d1 prompt ->
  extracts json_loads d2 prompt ->
  run json_loads d1 = run json_loads d2 /\
  (forall v, has_verdict json_loads d1 v <-> has_verdict json_loads d2 v).
Proof.
  intros H1 H2. split.
  - destruct (lacks_acceptance_frame prompt) as [[b Hb] | [e He]].
    + destruct b.
      * rewrite (run_blocked json_loads d1), (run_blocked json_loads d2);
          [reflexivity | exists prompt; split; assumption ..].
      * rewrite (run_allowed json_loads d1), (run_allowed json_loads d2);
          [reflexivity | exists prompt; split; assumption ..].
    + rewrite (run_uncaught json_loads d1 prompt e H1 He).
      rewrite (run_uncaught json_loads d2 prompt e H2 He). reflexivity.
  - intros v. split; intros (p & Hp & Hc).
    + rewrite (extracts_unique json_loads d1 p prompt Hp H1) in Hc.
      exists prompt. split; assumption.
    + rewrite (extracts_unique json_loads d2 p prompt Hp H2) in Hc.
      exists prompt. split; assumption.
Qed.

(** C9: two JSON objects whose ["prompt"] entries hold the same string (or
    both lack the entry) get the same verdict, the same text on the same
    stream and the same exit status, whatever their other entries are; when
    the entry is absent or the empty string the result is Allowed. *)
Theorem prompt_field_decides (json_loads : decoder)
    (d1 d2 : string) (entries1 entries2 : list (string * value)) (field : option value) :
  json_loads d1 = inr (VDict entries1) ->
  json_loads d2 = inr (VDict entries2) ->
  dict_lookup "prompt" entries1 = field ->
  dict_lookup "prompt" entries2 = field ->
  field = None \/ (exists s, field = Some (VStr s)) ->
  run json_loads d1 = run json_loads d2 /\
  (forall v, has_verdict json_loads d1 v <-> has_verdict json_loads d2 v) /\
  (field = None \/ field = Some (VStr EmptyString) ->
   run json_loads d1 = allowed_outcome /\ has_verdict json_loads d1 Allowed).
Proof.
  intros L1 L2 F1 F2 Hfield.
  pose proof (extract_prompt_cases json_loads d1) as E1.
  pose proof (extract_prompt_cases json_loads d2) as E2.
  rewrite L1, F1 in E1. rewrite L2, F2 in E2.
  destruct (run_depends_on_prompt json_loads d1 d2 _ E1 E2) as [Hrun Hv].
  split; [exact Hrun|]. split; [exact Hv|].
  intros Hempty.
  assert (Hext : extracts json_loads d1 (VStr EmptyString)).
  { destruct Hempty as [-> | ->]; exact E1. }
  pose proof (verdict_of_str json_loads d1 EmptyString Hext) as Ha. simpl in Ha.
  split; [now apply run_allowed | exact Ha].
Qed.

Lemma prompt_field_decides_witness :
  Json.loads (prompt_object (Json.quoted "ship it"))
    = inr (VDict [("prompt", VStr "ship it")]) /\
  Json.loads ("{" ++ Json.quoted "session" ++ ": [1, null], " ++ Json.quoted "prompt"
              ++ " : " ++ Json.quoted "ship it" ++ ", " ++ Json.quoted "cwd" ++ ": {}}")
    = inr (VDict [("session", VList [VInt 1; VNone]); ("prompt", VStr "ship it");
                  ("cwd", VDict [])]) /\
  run Json.loads (prompt_object (Json.quoted "ship it"))
  = run Json.loads
      ("{" ++ Json.quoted "session" ++ ": [1, null], " ++ Json.quoted "prompt"
       ++ " : " ++ Json.quoted "ship it" ++ ", " ++ Json.quoted "cwd" ++ ": {}}").
Proof.
  assert (H1 : Json.loads (prompt_object (Json.quoted "ship it"))
               = inr (VDict [("prompt", VStr "ship it")])).
  { vm_compute. reflexivity. }
  assert (H2 : Json.loads
                 ("{" ++ Json.quoted "session" ++ ": [1, null], " ++ Json.quoted "prompt"
                  ++ " : " ++ Json.quoted "ship it" ++ ", " ++ Json.quoted "cwd" ++ ": {}}")
               = inr (VDict [("session", VList [VInt 1; VNone]); ("prompt", VStr "ship it");
                             ("cwd", VDict [])])).
  { vm_compute. reflexivity. }
  split; [exact H1|]. split; [exact H2|].
  refine (proj1 (prompt_field_decides Json.loads _ _ _ _ (Some (VStr "ship it"))
                   H1 H2 eq_refl eq_refl _)).
  right. eexists. reflexivity.
Defined.

(** C9, as stated, fails when another field makes [json.loads] raise: the
    prompt of both inputs is the string [fix it], which is Blocked, but an
    entry ["n"] that is a number of 4301 digits is over the digit limit of
    [int] (a [ValueError]), and an entry ["x"] nested 1200 arrays deep is
    over the nesting the interpreter allows (a [RecursionError]). Both are
    raised inside the [try] block, the prompt becomes the empty string and
    the input is Allowed. With one digit less the same input is decoded and
    Blocked. *)
Lemma other_field_changes_result :
  Json.loads (prompt_object (Json.quoted "fix it"))
  = inr (VDict [("prompt", VStr "fix it")]) /\
  run Json.loads (prompt_object (Json.quoted "fix it")) = blocked_outcome /\
  Json.loads (prompt_and_number "fix it" 4301) = inl ValueError /\
  run Json.loads (prompt_and_number "fix it" 4301) = allowed_outcome /\
  (exists n, Json.loads (prompt_and_number "fix it" 4300)
             = inr (VDict [("prompt", VStr "fix it"); ("n", VInt n)])) /\
  run Json.loads (prompt_and_number "fix it" 4300) = blocked_outcome /\
  Json.loads (prompt_and_nesting "fix it" 1200) = inl RecursionError /\
  run Json.loads (prompt_and_nesting "fix it" 1200) = allowed_outcome /\
  run Json.loads (prompt_object (Json.quoted "fix it"))
  <> run Json.loads (prompt_and_number "fix it" 4301).
Proof.
  split; [vm_compute; reflexivity|].
  split; [vm_compute; reflexivity|].
  split; [vm_compute; reflexivity|].
  split; [vm_compute; reflexivity|].
  split; [eexists; vm_compute; reflexivity|].
  split; [vm_compute; reflexivity|].
  split; [vm_compute; reflexivity|].
  split; [vm_compute; reflexivity|].
  vm_compute. discriminate.
Qed.

(** ** A prompt that is not a string *)

(** C2: the input [{"prompt": null}] decodes to an object whose prompt is
    [None]; [len(None)] raises a [TypeError] outside the [try] block, so the
    script writes nothing and the interpreter ends with a traceback and exit
    status 1, which is neither 0 nor 2. *)
Theorem null_prompt_exit_status :
  Json.loads (prompt_object "null") = inr (VDict [("prompt", VNone)]) /\
  prompt_lint (prompt_object "null")
  = Outcome EmptyString EmptyString (Traceback TypeError) /\
  exit_status (ending (prompt_lint (prompt_object "null"))) = 1.
Proof. vm_compute. repeat split. Qed.

(** C8: the input [{"prompt": 5}] produces neither of the two effects:
    nothing is written to standard output or to standard error by the
    script, and the interpreter ends with a traceback. *)
Theorem number_prompt_no_effect :
  Json.loads (prompt_object "5") = inr (VDict [("prompt", VInt 5)]) /\
  prompt_lint (prompt_object "5") <> blocked_outcome /\
  prompt_lint (prompt_object "5") <> allowed_outcome /\
  out (prompt_lint (prompt_object "5")) = EmptyString /\
  err (prompt_lint (prompt_object "5")) = EmptyString /\
  ending (prompt_lint (prompt_object "5")) = Traceback TypeError.
Proof. vm_compute. repeat split; discriminate. Qed.

(** C5, as stated, fails on [{"prompt": []}]: the prompt is the empty list,
    which is not a string, yet [len] gives 0, the right operand of [and] is
    never evaluated, and the script ends Allowed with exit status 0. *)
Lemma empty_list_prompt_allowed :
  Json.loads (prompt_object "[]") = inr (VDict [("prompt", VList [])]) /\
  extracts Json.loads (prompt_object "[]") (VList []) /\
  (forall s, VList [] <> VStr s) /\
  prompt_lint (prompt_object "[]") = allowed_outcome /\
  exit_status (ending (prompt_lint (prompt_object "[]"))) = 0 /\
  ~ (exists e, ending (prompt_lint (prompt_object "[]")) = Traceback e).
Proof.
  split; [vm_compute; reflexivity|].
  split; [intros w; vm_compute; reflexivity|].
  split; [discriminate|].
  split; [vm_compute; reflexivity|].
  split; [vm_compute; reflexivity|].
  intros [e H]. vm_compute in H. discriminate.
Qed.

(** C5, amended: when [json.loads] decodes the input to an object whose
    ["prompt"] entry is not a string, extraction yields that value and not
    the empty string. If the
    value is [None], a [bool], a number, or a non-empty list or dict, line
    10 raises outside the [try] block: the script writes neither sentence
    and the exit status is neither 0 nor 2. If it is an empty list or an
    empty dict, its length is 0 and the verdict is Allowed. *)
Theorem nonstring_prompt_uncaught (json_loads : decoder)
    (data : string) (entries : list (string * value)) (v : value) :
  json_loads data = inr (VDict entries) ->
  dict_lookup "prompt" entries = Some v ->
  (forall s, v <> VStr s) ->
  extracts json_loads data v /\
  (v = VList [] \/ v = VDict [] -> run json_loads data = allowed_outcome) /\
  (v <> VList [] -> v <> VDict [] ->
   (exists e, run json_loads data = Outcome EmptyString EmptyString (Traceback e)) /\
   exit_status (ending (run json_loads data)) <> 0 /\
   exit_status (ending (run json_loads data)) <> 2 /\
   ~ has_verdict json_loads data Blocked /\
   ~ has_verdict json_loads data Allowed).
Proof.
  intros Hload Hfield Hnot.
  assert (Hext : extracts json_loads data v).
  { pose proof (extract_prompt_cases json_loads data) as H.
    now rewrite Hload, Hfield in H. }
  split; [exact Hext|]. split.
  - intros Hempty. apply run_allowed. exists v. split; [exact Hext|].
    destruct Hempty as [-> | ->]; intros w; reflexivity.
  - intros Hl Hd.
    assert (Hraise : exists e, forall w, lacks_acceptance v w = (Raise (Exc e), w)).
    { destruct v as [| b | n | lit | s | items | es].
      - exists TypeError. intros w. reflexivity.
      - exists TypeError. intros w. reflexivity.
      - exists TypeError. intros w. reflexivity.
      - exists TypeError. intros w. reflexivity.
      - now destruct (Hnot s).
      - destruct items as [|x items]; [now destruct Hl|].
        exists AttributeError. intros w. reflexivity.
      - destruct es as [|x es]; [now destruct Hd|].
        exists AttributeError. intros w. reflexivity. }
    destruct Hraise as [e He].
    pose proof (run_uncaught json_loads data v e Hext He) as Hrun.
    assert (Hnone : forall u, ~ has_verdict json_loads data u).
    { intros u (p & Hp & Hc).
      rewrite (extracts_unique json_loads data p v Hp Hext) in Hc.
      pose proof (Hc (World EmptyString EmptyString EmptyString)) as H.
      rewrite He in H. discriminate. }
    split; [exists e; exact Hrun|].
    rewrite Hrun. simpl.
    split; [discriminate|]. split; [discriminate|].
    split; apply Hnone.
Qed.

Lemma nonstring_prompt_uncaught_witness :
  Json.loads (prompt_object "[true]") = inr (VDict [("prompt", VList [VBool true])]) /\
  dict_lookup "prompt" [("prompt", VList [VBool true])] = Some (VList [VBool true]) /\
  (forall s, VList [VBool true] <> VStr s) /\
  extracts Json.loads (prompt_object "[true]") (VList [VBool true]) /\
  exit_status (ending (run Json.loads (prompt_object "[true]"))) <> 0.
Proof.
  assert (H1 : Json.loads (prompt_object "[true]")
               = inr (VDict [("prompt", VList [VBool true])])).
  { vm_compute. reflexivity. }
  assert (H2 : dict_lookup "prompt" [("prompt", VList [VBool true])]
               = Some (VList [VBool true])).
  { reflexivity. }
  assert (H3 : forall s, VList [VBool true] <> VStr s).
  { discriminate. }
  split; [exact H1|]. split; [exact H2|]. split; [exact H3|].
  destruct (nonstring_prompt_uncaught Json.loads _ _ _ H1 H2 H3) as (Hext & _ & Hcrash).
  split; [exact Hext|].
  refine (proj1 (proj2 (Hcrash _ _))); discriminate.
Defined.

(** ** The decoder has fuel enough *)

Lemma skip_whitespace_length (s : string) :
  (String.length (Json.skip_whitespace s) <= String.length s)%nat.
Proof.
  induction s as [|c s IH]; simpl; [lia|].
  destruct (Json.is_whitespace c); simpl; lia.
Qed.

Lemma take_digits_length (s : string) :
  (String.length (snd (Json.take_digits s)) <= String.length s)%nat.
Proof.
  induction s as [|c s IH]; simpl; [lia|].
  destruct (Json.is_digit c); simpl; [|lia].
  destruct (Json.take_digits s) as [ds rest]. simpl in *. lia.
Qed.

Lemma decode_uXXXX_length (s rest : string) (uni : N) :
  Json.decode_uXXXX s = Some (uni, rest) ->
  String.length s = (4 + String.length rest)%nat.
Proof.
  unfold Json.decode_uXXXX.
  destruct s as [|a [|b [|c [|d s]]]]; try discriminate.
  destruct (Json.hex_value a), (Json.hex_value b), (Json.hex_value c),
    (Json.hex_value d); try discriminate.
  intros H. inversion H. subst. reflexivity.
Qed.

Lemma prepend_progress (s s' chunk : string) (r : exception + (string * string)) :
  Json.progress s' r ->
  (String.length s' <= String.length s)%nat ->
  Json.progress s (Json.prepend chunk r).
Proof.
  destruct r as [e|[content rest]]; simpl; intros H Hle; [exact H | lia].
Qed.

Lemma scanstring_progress (fuel : nat) (s : string) :
  (String.length s < fuel)%nat -> Json.progress s (Json.scanstring fuel s).
Proof.
  revert s. induction fuel as [|fuel IH]; intros s Hfuel; [lia|].
  destruct s as [|c rest]; simpl; [reflexivity|].
  simpl in Hfuel.
  destruct (Ascii.eqb c Json.dquote); [simpl; lia|].
  destruct (Ascii.eqb c Json.backslash).
  - destruct rest as [|esc rest1]; [simpl; reflexivity|].
    simpl in Hfuel.
    destruct (Ascii.eqb esc "u").
    + destruct (Json.decode_uXXXX rest1) as [[uni rest2]|] eqn:D1; [|simpl; reflexivity].
      apply decode_uXXXX_length in D1.
      assert (Hplain : Json.progress (String c (String esc rest1))
                         (Json.prepend (Json.chr uni) (Json.scanstring fuel rest2))).
      { apply prepend_progress with (s' := rest2); [apply IH; lia | simpl; lia]. }
      destruct ((55296 <=? uni) && (uni <=? 56319))%N%bool; [|exact Hplain].
      destruct rest2 as [|b [|u rest3]]; try exact Hplain.
      destruct (Ascii.eqb b Json.backslash && Ascii.eqb u "u")%bool; [|exact Hplain].
      destruct (Json.decode_uXXXX rest3) as [[uni2 rest4]|] eqn:D2; [|simpl; reflexivity].
      apply decode_uXXXX_length in D2. simpl in D1.
      destruct ((56320 <=? uni2) && (uni2 <=? 57343))%N%bool; [|exact Hplain].
      apply prepend_progress with (s' := rest4); [apply IH; lia | simpl; lia].
    + destruct (Json.escape_char esc); [|simpl; reflexivity].
      apply prepend_progress with (s' := rest1); [apply IH; lia | simpl; lia].
  - destruct (nat_of_ascii c <? 32)%nat; [simpl; reflexivity|].
    apply prepend_progress with (s' := rest); [apply IH; lia | simpl; lia].
Qed.

Lemma scan_string_progress (s : string) : Json.progress s (Json.scan_string s).
Proof. apply scanstring_progress. lia. Qed.

Lemma match_integer_length (s integer rest : string) :
  Json.match_integer s = Some (integer, rest) ->
  (String.length rest < String.length s)%nat.
Proof.
  unfold Json.match_integer.
  assert (Hdigits : forall sign s1,
    match s1 with
    | String c r =>
        if Ascii.eqb c "0" then Some (sign ++ "0", r)
        else if Json.is_digit c
        then let (ds, r') := Json.take_digits r in Some (sign ++ String c ds, r')
        else None
    | EmptyString => None
    end = Some (integer, rest) ->
    (String.length rest < String.length s1)%nat).
  { intros sign [|c r]; [discriminate|].
    destruct (Ascii.eqb c "0").
    - intros H. inversion H. simpl. lia.
    - destruct (Json.is_digit c); [|discriminate].
      pose proof (take_digits_length r) as Hlen.
      destruct (Json.take_digits r) as [ds r'].
      intros H. inversion H. subst. simpl in *. lia. }
  destruct s as [|c r]; [discriminate|].
  destruct (Ascii.eqb c "-").
  - intros H. apply Hdigits in H. simpl. lia.
  - intros H. exact (Hdigits EmptyString (String c r) H).
Qed.

Lemma match_frac_length (s : string) :
  (String.length (snd (Json.match_frac s)) <= String.length s)%nat.
Proof.
  destruct s as [|c r]; simpl; [lia|].
  destruct (Ascii.eqb c "."); simpl; [|lia].
  pose proof (take_digits_length r) as Hlen.
  destruct (Json.take_digits r) as [[|d ds] r']; simpl in *; lia.
Qed.

Lemma match_exp_length (s : string) :
  (String.length (snd (Json.match_exp s)) <= String.length s)%nat.
Proof.
  destruct s as [|e r]; simpl; [lia|].
  destruct (Ascii.eqb e "e" || Ascii.eqb e "E")%bool; simpl; [|lia].
  destruct r as [|c r'].
  - simpl. lia.
  - destruct (Ascii.eqb c "+" || Ascii.eqb c "-")%bool.
    + pose proof (take_digits_length r') as Hlen.
      destruct (Json.take_digits r') as [[|d ds] r2]; simpl in *; lia.
    + pose proof (take_digits_length (String c r')) as Hlen.
      destruct (Json.take_digits (String c r')) as [[|d ds] r2]; simpl in *; lia.
Qed.

Lemma match_number_length (lim : Json.limits) (s rest : string) (v : value) :
  Json.match_number lim s = Some (inr (v, rest)) ->
  (String.length rest < String.length s)%nat.
Proof.
  unfold Json.match_number.
  destruct (Json.match_integer s) as [[integer s2]|] eqn:I; [|discriminate].
  apply match_integer_length in I.
  pose proof (match_frac_length s2) as F.
  destruct (Json.match_frac s2) as [frac s3].
  pose proof (match_exp_length s3) as X.
  destruct (Json.match_exp s3) as [exp s4].
  simpl in F, X.
  destruct frac, exp;
    try destruct ((Json.max_str_digits lim =? 0)%nat
                  || (Json.count_digits integer <=? Json.max_str_digits lim)%nat)%bool;
    intros H; inversion H; subst; lia.
Qed.

(** The only exception of [match_number] is the [ValueError] of [int]. *)
Lemma match_number_error (lim : Json.limits) (s : string) (e : exception) :
  Json.match_number lim s = Some (inl e) -> e = ValueError.
Proof.
  unfold Json.match_number.
  destruct (Json.match_integer s) as [[integer s2]|]; [|discriminate].
  destruct (Json.match_frac s2) as [frac s3].
  destruct (Json.match_exp s3) as [exp s4].
  destruct frac, exp;
    try destruct ((Json.max_str_digits lim =? 0)%nat
                  || (Json.count_digits integer <=? Json.max_str_digits lim)%nat)%bool;
    intros H; inversion H; reflexivity.
Qed.

Lemma drop_startswith (s p : string) :
  startswith s p = true ->
  (String.length (Json.drop (String.length p) s) + String.length p
   = String.length s)%nat.
Proof.
  revert s. induction p as [|c p IH]; intros s H; simpl in *.
  - destruct s; simpl; lia.
  - destruct s as [|d s]; [discriminate|].
    apply andb_true_iff in H. destruct H as [_ H].
    specialize (IH s H). simpl. lia.
Qed.

(** With more than twice the length of the text as fuel, [scan_once] never
    stops for lack of fuel; one unit more is enough for the two loops. *)
Lemma scanners_advance (lim : Json.limits) (fuel : nat) :
  (forall depth s, (2 * String.length s < fuel)%nat ->
                   Json.advances s (Json.scan_once fuel depth lim s)) /\
  (forall depth s, (2 * String.length s + 1 < fuel)%nat ->
                   Json.advances s (Json.array_items fuel depth lim s)) /\
  (forall depth s, (2 * String.length s + 1 < fuel)%nat ->
                   Json.advances s (Json.object_items fuel depth lim s)).
Proof.
  induction fuel as [|fuel (IHscan & IHarray & IHobject)].
  { repeat split; intros depth s H; lia. }
  split; [|split]; intros depth s Hfuel.
  - (* scan_once *)
    destruct s as [|c rest]; [simpl; auto|].
    cbn [Json.scan_once]. simpl in Hfuel.
    destruct (Ascii.eqb c Json.dquote).
    { pose proof (scan_string_progress rest) as P.
      destruct (Json.scan_string rest) as [e|[content rest']]; simpl in *; [auto | lia]. }
    destruct (Ascii.eqb c "{").
    { destruct depth as [|depth]; [simpl; auto|].
      pose proof (skip_whitespace_length rest) as W.
      destruct (Json.skip_whitespace rest) as [|c1 rest1]; [simpl; auto|].
      simpl in W.
      destruct (Ascii.eqb c1 "}"); [simpl; lia|].
      destruct (Ascii.eqb c1 Json.dquote); [|simpl; auto].
      assert (P : Json.advances rest1 (Json.object_items fuel depth lim rest1))
        by (apply IHobject; lia).
      destruct (Json.object_items fuel depth lim rest1) as [|e|pairs rest']; simpl in *;
        [exact P | exact P | lia]. }
    destruct (Ascii.eqb c "[").
    { destruct depth as [|depth]; [simpl; auto|].
      pose proof (skip_whitespace_length rest) as W.
      destruct (Json.skip_whitespace rest) as [|c1 rest1]; [simpl; auto|].
      simpl in W.
      destruct (Ascii.eqb c1 "]"); [simpl; lia|].
      assert (P : Json.advances (String c1 rest1)
                    (Json.array_items fuel depth lim (String c1 rest1)))
        by (apply IHarray; simpl; lia).
      destruct (Json.array_items fuel depth lim (String c1 rest1)) as [|e|items rest'];
        simpl in *; [exact P | exact P | lia]. }
    destruct (startswith (String c rest) "null") eqn:L1.
    { apply drop_startswith in L1. simpl in *. lia. }
    destruct (startswith (String c rest) "true") eqn:L2.
    { apply drop_startswith in L2. simpl in *. lia. }
    destruct (startswith (String c rest) "false") eqn:L3.
    { apply drop_startswith in L3. simpl in *. lia. }
    destruct (Json.match_number lim (String c rest)) as [[e|[v rest']]|] eqn:Num.
    { apply match_number_error in Num. simpl. auto. }
    { apply match_number_length in Num. simpl in *. lia. }
    destruct (startswith (String c rest) "NaN") eqn:L4.
    { apply drop_startswith in L4. simpl in *. lia. }
    destruct (startswith (String c rest) "Infinity") eqn:L5.
    { apply drop_startswith in L5. simpl in *. lia. }
    destruct (startswith (String c rest) "-Infinity") eqn:L6.
    { apply drop_startswith in L6. simpl in *. lia. }
    simpl. auto.
  - (* array_items *)
    cbn [Json.array_items].
    assert (P : Json.advances s (Json.scan_once fuel depth lim s)) by (apply IHscan; lia).
    destruct (Json.scan_once fuel depth lim s) as [|e|v rest]; simpl in P;
      [exact P | exact P |].
    pose proof (skip_whitespace_length rest) as W.
    destruct (Json.skip_whitespace rest) as [|c rest1]; [simpl; auto|].
    simpl in W.
    destruct (Ascii.eqb c "]"); [simpl; lia|].
    destruct (Ascii.eqb c ","); [|simpl; auto].
    pose proof (skip_whitespace_length rest1) as W1.
    assert (Q : Json.advances (Json.skip_whitespace rest1)
                  (Json.array_items fuel depth lim (Json.skip_whitespace rest1)))
      by (apply IHarray; lia).
    destruct (Json.array_items fuel depth lim (Json.skip_whitespace rest1))
      as [|e|items rest']; simpl in *; [exact Q | exact Q | lia].
  - (* object_items *)
    cbn [Json.object_items].
    pose proof (scan_string_progress s) as P.
    destruct (Json.scan_string s) as [e|[key rest]]; simpl in P; [simpl; auto|].
    pose proof (skip_whitespace_length rest) as W.
    destruct (Json.skip_whitespace rest) as [|colon rest1]; [simpl; auto|].
    simpl in W.
    destruct (Ascii.eqb colon ":"); [|simpl; auto].
    pose proof (skip_whitespace_length rest1) as W1.
    assert (Q : Json.advances (Json.skip_whitespace rest1)
                  (Json.scan_once fuel depth lim (Json.skip_whitespace rest1)))
      by (apply IHscan; lia).
    destruct (Json.scan_once fuel depth lim (Json.skip_whitespace rest1))
      as [|e|v rest2]; simpl in Q; [exact Q | exact Q |].
    pose proof (skip_whitespace_length rest2) as W2.
    destruct (Json.skip_whitespace rest2) as [|c rest3]; [simpl; auto|].
    simpl in W2.
    destruct (Ascii.eqb c "}"); [simpl; lia|].
    destruct (Ascii.eqb c ","); [|simpl; auto].
    pose proof (skip_whitespace_length rest3) as W3.
    destruct (Json.skip_whitespace rest3) as [|q rest4]; [simpl; auto|].
    simpl in W3.
    destruct (Ascii.eqb q Json.dquote); [|simpl; auto].
    assert (R : Json.advances rest4 (Json.object_items fuel depth lim rest4))
      by (apply IHobject; lia).
    destruct (Json.object_items fuel depth lim rest4) as [|e|pairs rest']; simpl in *;
      [exact R | exact R | lia].
Qed.

(** [Json.loads_with] gives its scanner fuel enough for every text: the
    scanner never answers [OutOfFuel], so a [RecursionError] of the decoder
    always comes from the nesting limit, and its only other exceptions are
    [JSONDecodeError] and the [ValueError] of the digit limit. *)
Lemma loads_has_fuel (lim : Json.limits) (s : string) :
  Json.scan_once (2 * String.length s + 2) (Json.max_nesting lim) lim
    (Json.skip_whitespace s) <> Json.OutOfFuel /\
  (forall e, Json.loads_with lim s = inl e ->
             e = JSONDecodeError \/ e = RecursionError \/ e = ValueError).
Proof.
  pose proof (skip_whitespace_length s) as W.
  assert (P : Json.advances (Json.skip_whitespace s)
                (Json.scan_once (2 * String.length s + 2) (Json.max_nesting lim) lim
                   (Json.skip_whitespace s)))
    by (apply scanners_advance; lia).
  split.
  - intros E. rewrite E in P. exact P.
  - intros e. unfold Json.loads_with.
    destruct (startswith s Json.bom); [intros H; inversion H; auto|].
    destruct (Json.scan_once (2 * String.length s + 2) (Json.max_nesting lim) lim
                (Json.skip_whitespace s)) as [|e'|v rest].
    + destruct P.
    + intros H. inversion H. subst. exact P.
    + destruct (Json.skip_whitespace rest); intros H; inversion H. auto.
Qed.

(** * Further properties of the script *)

(** ** Line 10, type by type *)

Lemma lacks_acceptance_cases (p : value) (w : world) :
  lacks_acceptance p w =
  (match p with
   | VStr s =>
       Return ((0 <? Z.of_nat (String.length s)) &&
               negb (str_contains marker (str_lower s)))%bool
   | VList [] | VDict [] => Return false
   | VList (_ :: _) | VDict (_ :: _) => Raise (Exc AttributeError)
   | VNone | VBool _ | VInt _ | VFloat _ => Raise (Exc TypeError)
   end, w).
Proof.
  destruct p as [| b | n | lit | s | items | entries]; try reflexivity.
  - apply lacks_acceptance_str.
  - destruct items; reflexivity.
  - destruct entries; reflexivity.
Qed.

(** X1: the script blocks exactly the inputs whose prompt is a string that
    is not empty and whose lowercase form lacks the marker; a prompt of any
    other type is never Blocked. *)
Theorem blocked_iff_string_rule (json_loads : decoder) (data : string) :
  has_verdict json_loads data Blocked <->
  exists s, extracts json_loads data (VStr s) /\ rule_blocks s.
Proof.
  split.
  - intros (p & Hp & Hc).
    specialize (Hc (World EmptyString EmptyString EmptyString)).
    rewrite lacks_acceptance_cases in Hc.
    destruct p as [| b | n | lit | s | [|x items] | [|x entries]]; try discriminate.
    exists s. split; [exact Hp|].
    apply condition_true_iff. simpl in Hc. now inversion Hc.
  - intros (s & Hs & Hr).
    pose proof (verdict_of_str json_loads data s Hs) as Hv.
    now rewrite (proj2 (condition_true_iff s) Hr) in Hv.
Qed.

(** X2: the script allows exactly the inputs whose prompt is a string that
    is empty or holds the marker in its lowercase form, an empty list, or an
    empty dict. *)
Theorem allowed_iff_string_or_empty_container (json_loads : decoder) (data : string) :
  has_verdict json_loads data Allowed <->
  exists p,
    extracts json_loads data p /\
    ((exists s, p = VStr s /\ ~ rule_blocks s) \/ empty_container p = true).
Proof.
  split.
  - intros (p & Hp & Hc). exists p. split; [exact Hp|].
    specialize (Hc (World EmptyString EmptyString EmptyString)).
    rewrite lacks_acceptance_cases in Hc.
    destruct p as [| b | n | lit | s | [|x items] | [|x entries]]; try discriminate;
      try (right; reflexivity).
    left. exists s. split; [reflexivity|].
    intros Hr. apply condition_true_iff in Hr.
    simpl in Hc. inversion Hc as [Hb]. rewrite Hr in Hb. discriminate.
  - intros (p & Hp & [(s & -> & Hn) | He]).
    + pose proof (verdict_of_str json_loads data s Hp) as Hv.
      destruct ((0 <? Z.of_nat (String.length s)) &&
                negb (str_contains marker (str_lower s)))%bool eqn:E; [|exact Hv].
      apply condition_true_iff in E. contradiction.
    + exists p. split; [exact Hp|]. intros w. rewrite lacks_acceptance_cases.
      destruct p as [| b | n | lit | s | [|x items] | [|x entries]];
        try discriminate; reflexivity.
Qed.

(** Once line 3 has read text, a run ends with a traceback exactly when
    the prompt has no length (a [TypeError]) or is a non-empty list or dict
    (an [AttributeError]). *)
Lemma traceback_kinds_text (json_loads : decoder) (data : string) (e : exception) :
  ending (run json_loads data) = Traceback e <->
  exists p,
    extracts json_loads data p /\
    ((unsized p = true /\ e = TypeError) \/
     (nonempty_container p = true /\ e = AttributeError)).
Proof.
  split.
  - intros Hend.
    destruct (verdict_or_exception json_loads data) as [H | [H | (p & e' & Hp & He)]].
    + rewrite (run_blocked json_loads data H) in Hend. discriminate.
    + rewrite (run_allowed json_loads data H) in Hend. discriminate.
    + rewrite (run_uncaught json_loads data p e' Hp He) in Hend.
      simpl in Hend. inversion Hend. subst e'.
      exists p. split; [exact Hp|].
      specialize (He (World EmptyString EmptyString EmptyString)).
      rewrite lacks_acceptance_cases in He.
      destruct p as [| b | n | lit | s | [|x items] | [|x entries]];
        try discriminate; inversion He; auto.
  - intros (p & Hp & Hkind).
    assert (He : forall w, lacks_acceptance p w = (Raise (Exc e), w)).
    { intros w. rewrite lacks_acceptance_cases.
      destruct Hkind as [[Hk ->] | [Hk ->]];
        destruct p as [| b | n | lit | s | [|x items] | [|x entries]];
        try discriminate; reflexivity. }
    now rewrite (run_uncaught json_loads data p e Hp He).
Qed.

(** X3: on a standard input of bytes, a run ends with a traceback exactly
    when [sys.stdin.read()] on line 3 raises (the stream cannot decode the
    bytes, and line 3 is outside the [try] block), or the prompt has no
    length (a [TypeError]), or the prompt is a non-empty list or dict (an
    [AttributeError]); an exception of [json.loads] or of [obj.get] never
    reaches the caller. *)
Theorem traceback_kinds (decode : text_decoder) (json_loads : decoder)
    (bytes : string) (e : exception) :
  ending (run_bytes decode json_loads bytes) = Traceback e <->
  decode bytes = inl e \/
  exists text p,
    decode bytes = inr text /\
    extracts json_loads text p /\
    ((unsized p = true /\ e = TypeError) \/
     (nonempty_container p = true /\ e = AttributeError)).
Proof.
  destruct (decode bytes) as [e'|text] eqn:Hdec.
  - rewrite (run_bytes_undecodable decode json_loads bytes e' Hdec). simpl. split.
    + intros H. inversion H. now left.
    + intros [H | (text & p & H & _)]; [now inversion H | discriminate].
  - rewrite (run_bytes_text decode json_loads bytes text Hdec).
    rewrite traceback_kinds_text. split.
    + intros (p & Hp & Hk). right. now exists text, p.
    + intros [H | (text' & p & H & Hp & Hk)]; [discriminate|].
      inversion H. subst text'. now exists p.
Qed.

(** X4: the exit status names the effect. It is 0, 1 or 2 on every input;
    it is 2 exactly when the run is the Blocked effect, 0 exactly when it is
    the Allowed effect, and 1 exactly when the script wrote nothing and the
    interpreter printed a traceback. *)
Theorem exit_status_identifies_effect (json_loads : decoder) (data : string) :
  (exit_status (ending (run json_loads data)) = 0 \/
   exit_status (ending (run json_loads data)) = 1 \/
   exit_status (ending (run json_loads data)) = 2) /\
  (exit_status (ending (run json_loads data)) = 2 <->
   run json_loads data = blocked_outcome) /\
  (exit_status (ending (run json_loads data)) = 0 <->
   run json_loads data = allowed_outcome) /\
  (exit_status (ending (run json_loads data)) = 1 <->
   exists e, run json_loads data = Outcome EmptyString EmptyString (Traceback e)).
Proof.
  destruct (run_cases json_loads data) as [H | [H | [e H]]]; rewrite H; simpl.
  - split; [auto|]. split; [tauto|].
    split; split; try discriminate. intros [e He]. discriminate.
  - split; [auto|]. split; [split; discriminate|].
    split; [tauto|]. split; [discriminate|]. intros [e He]. discriminate.
  - split; [auto|]. split; [split; discriminate|].
    split; [split; discriminate|]. split; [|reflexivity].
    intros _. now exists e.
Qed.

(** X5: whatever the streams hold and whatever the input is, the script
    reads standard input to its end, never returns normally, and performs
    at most one write, which appends to one stream: the reminder to standard
    error before [SystemExit(2)], or the guidance to standard output before
    [SystemExit(0)], or nothing before an uncaught exception. Text already
    on a stream is kept. *)
Theorem main_single_write (json_loads : decoder) (w : world) :
  stdin (snd (main json_loads w)) = EmptyString /\
  ((fst (main json_loads w) = Raise (SystemExit 2) /\
    stdout (snd (main json_loads w)) = stdout w /\
    stderr (snd (main json_loads w)) = stderr w ++ reminder) \/
   (fst (main json_loads w) = Raise (SystemExit 0) /\
    stdout (snd (main json_loads w)) = stdout w ++ guidance /\
    stderr (snd (main json_loads w)) = stderr w) \/
   ((exists e, fst (main json_loads w) = Raise (Exc e)) /\
    stdout (snd (main json_loads w)) = stdout w /\
    stderr (snd (main json_loads w)) = stderr w)).
Proof.
  destruct (verdict_or_exception json_loads (stdin w)) as [H | [H | (p & e & Hp & He)]].
  - rewrite (main_blocked json_loads (stdin w) w H eq_refl). simpl.
    split; [reflexivity|]. left. repeat split.
  - rewrite (main_allowed json_loads (stdin w) w H eq_refl). simpl.
    split; [reflexivity|]. right. left. repeat split.
  - rewrite (main_uncaught json_loads (stdin w) p e w Hp He eq_refl). simpl.
    split; [reflexivity|]. right. right. split; [now exists e | split; reflexivity].
Qed.

(** ** The marker test on string prompts *)

Lemma condition_false_run (json_loads : decoder) (data s : string) :
  extracts json_loads data (VStr s) ->
  ((0 <? Z.of_nat (String.length s)) &&
   negb (str_contains marker (str_lower s)))%bool = false ->
  run json_loads data = allowed_outcome.
Proof.
  intros Hs Hc. apply run_allowed.
  pose proof (verdict_of_str json_loads data s Hs) as Hv. now rewrite Hc in Hv.
Qed.

Lemma condition_true_run (json_loads : decoder) (data s : string) :
  extracts json_loads data (VStr s) ->
  ((0 <? Z.of_nat (String.length s)) &&
   negb (str_contains marker (str_lower s)))%bool = true ->
  run json_loads data = blocked_outcome.
Proof.
  intros Hs Hc. apply run_blocked.
  pose proof (verdict_of_str json_loads data s Hs) as Hv. now rewrite Hc in Hv.
Qed.

(** X6: the case of the letters A-Z of a string prompt does not matter:
    two inputs whose prompts are equal up to the case of those letters get
    the same run and the same verdict. *)
Theorem verdict_ignores_letter_case (json_loads : decoder) (d1 d2 s1 s2 : string) :
  extracts json_loads d1 (VStr s1) ->
  extracts json_loads d2 (VStr s2) ->
  same_ignoring_case s1 s2 = true ->
  run json_loads d1 = run json_loads d2 /\
  (forall v, has_verdict json_loads d1 v <-> has_verdict json_loads d2 v).
Proof.
  intros H1 H2 Hsame.
  pose proof (same_ignoring_case_lower s1 s2 Hsame) as Hlow.
  assert (Hlen : String.length s1 = String.length s2).
  { now rewrite <- (str_lower_length s1), <- (str_lower_length s2), Hlow. }
  pose proof (verdict_of_str json_loads d1 s1 H1) as V1.
  pose proof (verdict_of_str json_loads d2 s2 H2) as V2.
  rewrite Hlen, Hlow in V1.
  destruct ((0 <? Z.of_nat (String.length s2)) &&
            negb (str_contains marker (str_lower s2)))%bool.
  - split.
    + now rewrite (run_blocked json_loads d1 V1), (run_blocked json_loads d2 V2).
    + intros v. split; intros Hv.
      * now rewrite (verdict_unique json_loads d1 v Blocked Hv V1).
      * now rewrite (verdict_unique json_loads d2 v Blocked Hv V2).
  - split.
    + now rewrite (run_allowed json_loads d1 V1), (run_allowed json_loads d2 V2).
    + intros v. split; intros Hv.
      * now rewrite (verdict_unique json_loads d1 v Allowed Hv V1).
      * now rewrite (verdict_unique json_loads d2 v Allowed Hv V2).
Qed.

Lemma verdict_ignores_letter_case_witness :
  extracts Json.loads (prompt_object (Json.quoted "Meet the Acceptance bar"))
    (VStr "Meet the Acceptance bar") /\
  extracts Json.loads (prompt_object (Json.quoted "meet THE ACCEPTANCE Bar"))
    (VStr "meet THE ACCEPTANCE Bar") /\
  same_ignoring_case "Meet the Acceptance bar" "meet THE ACCEPTANCE Bar" = true /\
  run Json.loads (prompt_object (Json.quoted "Meet the Acceptance bar"))
  = run Json.loads (prompt_object (Json.quoted "meet THE ACCEPTANCE Bar")).
Proof.
  assert (H1 : extracts Json.loads (prompt_object (Json.quoted "Meet the Acceptance bar"))
                 (VStr "Meet the Acceptance bar")).
  { intros w. vm_compute. reflexivity. }
  assert (H2 : extracts Json.loads (prompt_object (Json.quoted "meet THE ACCEPTANCE Bar"))
                 (VStr "meet THE ACCEPTANCE Bar")).
  { intros w. vm_compute. reflexivity. }
  assert (H3 : same_ignoring_case "Meet the Acceptance bar" "meet THE ACCEPTANCE Bar"
               = true).
  { vm_compute. reflexivity. }
  split; [exact H1|]. split; [exact H2|]. split; [exact H3|].
  exact (proj1 (verdict_ignores_letter_case Json.loads _ _ _ _ H1 H2 H3)).
Defined.

Lemma code_points_app (a b : string) :
  code_points (a ++ b) = (code_points a + code_points b)%nat.
Proof. induction a as [|c a IH]; simpl; [reflexivity | rewrite IH; lia]. Qed.

(** [str_lower] changes no byte to or from a continuation byte. *)
Lemma code_points_lower (s : string) : code_points (str_lower s) = code_points s.
Proof.
  induction s as [|c s IH]; simpl; [reflexivity|]. rewrite IH. f_equal.
  unfold lower_char, continuation, in_range.
  destruct ((65 <=? nat_of_ascii c)%nat && (nat_of_ascii c <=? 90)%nat)%bool eqn:E;
    [|reflexivity].
  apply andb_true_iff in E. destruct E as [H1 H2].
  apply Nat.leb_le in H1. apply Nat.leb_le in H2.
  rewrite nat_ascii_embedding by lia.
  replace (128 <=? nat_of_ascii c + 32)%nat with false
    by (symmetry; apply Nat.leb_gt; lia).
  replace (128 <=? nat_of_ascii c)%nat with false
    by (symmetry; apply Nat.leb_gt; lia).
  reflexivity.
Qed.

(** X7: a string prompt that is not empty and has fewer characters (code
    points, as Python's [len] counts them) than the marker, that is fewer
    than 10, is always Blocked, however many bytes its characters take. *)
Theorem short_prompt_blocked (json_loads : decoder) (data s : string) :
  extracts json_loads data (VStr s) ->
  s <> EmptyString ->
  (code_points s < 10)%nat ->
  run json_loads data = blocked_outcome /\ has_verdict json_loads data Blocked.
Proof.
  intros Hs Hne Hshort.
  assert (Hc : ((0 <? Z.of_nat (String.length s)) &&
                negb (str_contains marker (str_lower s)))%bool = true).
  { apply condition_true_iff. split.
    - destruct s; [now destruct Hne | simpl; lia].
    - destruct (str_contains marker (str_lower s)) eqn:E; [|reflexivity].
      apply str_contains_spec in E. destruct E as (pre & post & E).
      assert (Hcount : code_points (str_lower s)
                       = (code_points pre + (10 + code_points post))%nat).
      { rewrite E, !code_points_app. reflexivity. }
      rewrite code_points_lower in Hcount. lia. }
  split; [now apply condition_true_run with (s := s)|].
  pose proof (verdict_of_str json_loads data s Hs) as Hv. now rewrite Hc in Hv.
Qed.

(** Nine characters that take eighteen bytes. *)
Lemma short_prompt_blocked_witness :
  extracts Json.loads (prompt_object (Json.quoted "ééééééééé")) (VStr "ééééééééé") /\
  String.length "ééééééééé" = 18%nat /\
  (code_points "ééééééééé" < 10)%nat /\
  run Json.loads (prompt_object (Json.quoted "ééééééééé")) = blocked_outcome.
Proof.
  assert (H1 : extracts Json.loads (prompt_object (Json.quoted "ééééééééé"))
                 (VStr "ééééééééé")).
  { intros w. vm_compute. reflexivity. }
  assert (H2 : (code_points "ééééééééé" < 10)%nat).
  { vm_compute. lia. }
  split; [exact H1|]. split; [reflexivity|]. split; [exact H2|].
  refine (proj1 (short_prompt_blocked Json.loads _ _ H1 _ H2)). discriminate.
Defined.

(** X8: text added before or after a string prompt that is not empty and is
    Allowed leaves it Allowed. *)
Theorem allowed_survives_added_text (json_loads : decoder)
    (d1 d2 s pre post : string) :
  extracts json_loads d1 (VStr s) ->
  extracts json_loads d2 (VStr (pre ++ s ++ post)) ->
  s <> EmptyString ->
  run json_loads d1 = allowed_outcome ->
  run json_loads d2 = allowed_outcome.
Proof.
  intros H1 H2 Hne Hrun.
  assert (Hin : str_contains marker (str_lower s) = true).
  { destruct (str_contains marker (str_lower s)) eqn:E; [reflexivity|].
    assert (Hc : ((0 <? Z.of_nat (String.length s)) &&
                  negb (str_contains marker (str_lower s)))%bool = true).
    { apply condition_true_iff. split; [|exact E].
      destruct s; [now destruct Hne | simpl; lia]. }
    rewrite (condition_true_run json_loads d1 s H1 Hc) in Hrun.
    now apply blocked_allowed_differ in Hrun. }
  apply condition_false_run with (s := pre ++ s ++ post); [exact H2|].
  apply str_contains_spec in Hin. destruct Hin as (a & b & Hs).
  assert (Hbig : str_contains marker (str_lower (pre ++ s ++ post)) = true).
  { apply str_contains_spec.
    exists (str_lower pre ++ a), (b ++ str_lower post).
    rewrite !str_lower_app, Hs. now rewrite !string_app_assoc. }
  rewrite Hbig. apply andb_false_r.
Qed.

Lemma allowed_survives_added_text_witness :
  extracts Json.loads (prompt_object (Json.quoted "Acceptance: all tests pass"))
    (VStr "Acceptance: all tests pass") /\
  extracts Json.loads
    (prompt_object (Json.quoted "Add login. Acceptance: all tests pass. Thanks"))
    (VStr ("Add login. " ++ "Acceptance: all tests pass" ++ ". Thanks")) /\
  run Json.loads (prompt_object (Json.quoted "Add login. Acceptance: all tests pass. Thanks"))
  = allowed_outcome.
Proof.
  assert (H1 : extracts Json.loads (prompt_object (Json.quoted "Acceptance: all tests pass"))
                 (VStr "Acceptance: all tests pass")).
  { intros w. vm_compute. reflexivity. }
  assert (H2 : extracts Json.loads
                 (prompt_object (Json.quoted "Add login. Acceptance: all tests pass. Thanks"))
                 (VStr ("Add login. " ++ "Acceptance: all tests pass" ++ ". Thanks"))).
  { intros w. vm_compute. reflexivity. }
  split; [exact H1|]. split; [exact H2|].
  refine (allowed_survives_added_text Json.loads _ _ _ _ _ H1 H2 _ _).
  - discriminate.
  - vm_compute. reflexivity.
Defined.

(** X9: a string prompt is Allowed exactly when it is empty or holds, at
    some place, a run of characters whose lowercase form is the marker. *)
Theorem allowed_iff_case_variant (json_loads : decoder) (data s : string) :
  extracts json_loads data (VStr s) ->
  (run json_loads data = allowed_outcome <->
   s = EmptyString \/
   exists pre m post, s = pre ++ m ++ post /\ str_lower m = marker).
Proof.
  intros Hs. split.
  - intros Hrun.
    destruct s as [|c s]; [now left|]. right.
    assert (Hin : str_contains marker (str_lower (String c s)) = true).
    { destruct (str_contains marker (str_lower (String c s))) eqn:E; [reflexivity|].
      assert (Hc : ((0 <? Z.of_nat (String.length (String c s))) &&
                    negb (str_contains marker (str_lower (String c s))))%bool = true).
      { apply condition_true_iff. split; [simpl; lia | exact E]. }
      rewrite (condition_true_run json_loads data _ Hs Hc) in Hrun.
      now apply blocked_allowed_differ in Hrun. }
    apply str_contains_spec in Hin. destruct Hin as (a & b & Hsplit).
    destruct (str_lower_split _ _ _ Hsplit) as (pre & rest & Hs1 & Ha & Hrest).
    destruct (str_lower_split _ _ _ Hrest) as (m & post & Hs2 & Hm & Hb).
    exists pre, m, post. split; [now rewrite Hs1, Hs2 | exact Hm].
  - intros [-> | (pre & m & post & -> & Hm)].
    + now apply condition_false_run with (s := EmptyString).
    + apply condition_false_run with (s := pre ++ m ++ post); [exact Hs|].
      rewrite (marker_any_case pre m post Hm). apply andb_false_r.
Qed.

Lemma allowed_iff_case_variant_witness :
  extracts Json.loads (prompt_object (Json.quoted "pre-ACCEPTANCE checks"))
    (VStr "pre-ACCEPTANCE checks") /\
  run Json.loads (prompt_object (Json.quoted "pre-ACCEPTANCE checks")) = allowed_outcome.
Proof.
  assert (H : extracts Json.loads (prompt_object (Json.quoted "pre-ACCEPTANCE checks"))
                (VStr "pre-ACCEPTANCE checks")).
  { intros w. vm_compute. reflexivity. }
  split; [exact H|].
  apply (proj2 (allowed_iff_case_variant Json.loads _ _ H)).
  right. exists "pre-", "ACCEPTANCE", " checks". split; reflexivity.
Defined.
